(** * Dashboard BTC: a shallow embedding of [app.py]

    The program downloads a daily price table into the global frame [df],
    and serves three views of it: [update_graph] (a line chart of one
    column), [update_table] (the [describe()] summary) and
    [generar_acf_pacf] (two bar charts of autocorrelations).

    The embedding keeps the shape of the Python code.  Frames live in a
    store and are handled by reference, as pandas objects are; the calls
    into pandas, plotly and statsmodels are modelled in modules of the
    same names, down to the floating-point kernels, which are fields of
    the class [Numerics]. *)

From Stdlib Require Import String ZArith QArith Qround Qminmax List Lia Permutation.
From stdpp Require Import base option list gmap strings numbers.

Open Scope string_scope.
Open Scope nat_scope.

(** ** Exceptions and results *)

Inductive exn :=
| KeyError (key : string)
| ValueError (msg : string)
| TypeError (msg : string)
| IndexError
| NameError.

Inductive result (A : Type) :=
| Ok (a : A)
| Raise (e : exn).
Arguments Ok {A} a.
Arguments Raise {A} e.

#[global] Instance result_ret : MRet result := fun A a => Ok a.
#[global] Instance result_bind : MBind result := fun A B f r =>
  match r with Ok a => f a | Raise e => Raise e end.

Fixpoint mapR {A B} (f : A -> result B) (l : list A) : result (list B) :=
  match l with
  | [] => Ok []
  | a :: l' => b ← f a; bs ← mapR f l'; Ok (b :: bs)
  end.

(** ** Floating-point values and the numerical kernels of the libraries

    [V] stands for float64.  NaN is a value of [V] (it is pandas' null in a
    float column).  The arithmetic is kept abstract; the one law used is that
    a finite non-zero float divided by itself is 1.0.  The remaining fields
    are library routines whose floating-point results are not described
    further: the reductions behind [describe()], the Yule-Walker solve
    behind [pacf], and the scalar conversion behind [pd.to_datetime]. *)

Inductive Cell (V : Type) :=
| CFloat (v : V)
| CInt (z : Z)
| CTime (t : option Z)          (* Timestamp in ns; None is NaT *)
| CStr (s : string)
| CNone.
Arguments CFloat {V} v.
Arguments CInt {V} z.
Arguments CTime {V} t.
Arguments CStr {V} s.
Arguments CNone {V}.

Class Numerics (V : Type) := {
  f_nan : V;
  f_isnan : V -> bool;
  f_one : V;
  f_of_Z : Z -> V;
  f_add : V -> V -> V;
  f_sub : V -> V -> V;
  f_mul : V -> V -> V;
  f_div : V -> V -> V;
  (* finite and different from zero *)
  f_regular : V -> bool;
  f_div_diag : forall a, f_regular a = true -> f_div a a = f_one;
  (* Series.mean/std/min/quantile/max with skipna, keyed by the row label *)
  k_describe_num : string -> list V -> V;
  (* the same reductions on a datetime64 column *)
  k_describe_time : string -> list (option Z) -> option Z;
  (* unique/top/freq of describe_categorical_1d *)
  k_describe_obj : string -> list (Cell V) -> Cell V;
  (* yule_walker(x, k, method="adjusted")[0][-1] *)
  k_yule_walker : list V -> nat -> V;
  (* conversion of one scalar by pd.to_datetime *)
  k_to_timestamp : Cell V -> result (option Z)
}.

(** ** pandas: Series and DataFrame values *)

Module pandas.
Section Frames.
Context {V : Type} `{Numerics V}.

Inductive Series :=
| Float64 (xs : list V)
| Int64 (xs : list Z)
| Datetime64 (xs : list (option Z))
| Object (xs : list (Cell V)).

Inductive Index :=
| RangeIndex (n : nat)
| Labels (ls : list string).

Record DataFrame := mkDataFrame {
  index : Index;
  columns : list (string * Series)
}.

Definition cells (s : Series) : list (Cell V) :=
  match s with
  | Float64 xs => map CFloat xs
  | Int64 xs => map CInt xs
  | Datetime64 xs => map CTime xs
  | Object xs => xs
  end.

Definition series_len (s : Series) : nat := length (cells s).

Definition index_len (i : Index) : nat :=
  match i with RangeIndex n => n | Labels ls => length ls end.

Definition nrows (d : DataFrame) : nat := index_len (index d).

Definition names (d : DataFrame) : list string := map fst (columns d).

(** [pd.isnull] on one scalar. *)
Definition cell_isnull (c : Cell V) : bool :=
  match c with
  | CFloat v => f_isnan v
  | CTime None => true
  | CNone => true
  | _ => false
  end.

(** [s.isnull().all()] *)
Definition isnull_all (s : Series) : bool := forallb cell_isnull (cells s).

(** [s.count()]: the number of non-null entries. *)
Definition count (s : Series) : nat :=
  length (filter (fun c => cell_isnull c = false) (cells s)).

(** [s.dropna()] *)
Definition dropna (s : Series) : Series :=
  match s with
  | Float64 xs => Float64 (filter (fun v => f_isnan v = false) xs)
  | Int64 xs => Int64 xs
  | Datetime64 xs => Datetime64 (filter (fun t => is_Some t) xs)
  | Object xs => Object (filter (fun c => cell_isnull c = false) xs)
  end.

(** [name in df.columns] *)
Definition contains (d : DataFrame) (name : string) : bool :=
  bool_decide (name ∈ names d).

(** [df[name]]: a Series when the label is unique, a sub-frame when it is
    repeated, KeyError when it is absent. *)
Inductive Selection :=
| OneSeries (s : Series)
| SubFrame (cs : list Series).

Definition getitem (d : DataFrame) (name : string) : result Selection :=
  match filter (fun c => c.1 = name) (columns d) with
  | [] => Raise (KeyError name)
  | [c] => Ok (OneSeries c.2)
  | cs => Ok (SubFrame (map snd cs))
  end.

(** [not sel.isnull().all()]: on a sub-frame [all()] is a boolean Series of
    two or more entries, whose truth value is ambiguous. *)
Definition not_isnull_all (sel : Selection) : result bool :=
  match sel with
  | OneSeries s => Ok (negb (isnull_all s))
  | SubFrame _ => Raise (ValueError "The truth value of a Series is ambiguous")
  end.

(** [pd.to_datetime(sel)] *)
Definition to_datetime (sel : Selection) : result Series :=
  match sel with
  | OneSeries (Datetime64 xs) => Ok (Datetime64 xs)
  | OneSeries (Int64 xs) => Ok (Datetime64 (map Some xs))
  | OneSeries s => ts ← mapR k_to_timestamp (cells s); Ok (Datetime64 ts)
  | SubFrame _ =>
      Raise (ValueError "to assemble mappings requires at least that [year, month, day] be specified")
  end.

(** *** [DataFrame.describe()] with the default arguments (pandas 2) *)

Definition numeric_index : list string :=
  ["count"; "mean"; "std"; "min"; "25%"; "50%"; "75%"; "max"].
Definition timestamp_index : list string :=
  ["count"; "mean"; "min"; "25%"; "50%"; "75%"; "max"].
Definition categorical_index : list string :=
  ["count"; "unique"; "top"; "freq"].

Definition count_Z (s : Series) : Z := Z.of_nat (count s).

Definition describe_numeric_1d (s : Series) (xs : list V) : list (string * Cell V) :=
  map (fun l => (l, CFloat (if bool_decide (l = "count") then f_of_Z (count_Z s)
                            else k_describe_num l xs))) numeric_index.

Definition describe_timestamp_1d (s : Series) (ts : list (option Z)) : list (string * Cell V) :=
  map (fun l => (l, if bool_decide (l = "count") then CInt (count_Z s)
                    else CTime (k_describe_time l ts))) timestamp_index.

Definition describe_categorical_1d (s : Series) : list (string * Cell V) :=
  map (fun l => (l, if bool_decide (l = "count") then CInt (count_Z s)
                    else k_describe_obj l (cells s))) categorical_index.

(** [select_describe_func(series)(series, percentiles)] *)
Definition describe_1d (s : Series) : list (string * Cell V) :=
  match s with
  | Float64 xs => describe_numeric_1d s xs
  | Int64 xs => describe_numeric_1d s (map f_of_Z xs)
  | Datetime64 ts => describe_timestamp_1d s ts
  | Object _ => describe_categorical_1d s
  end.

Definition is_number_or_datetime (s : Series) : bool :=
  match s with Object _ => false | _ => true end.

(** [_select_data]: the numeric and datetime columns, or every column when
    there is none of them. *)
Definition select_data (d : DataFrame) : list (string * Series) :=
  match filter (fun c => is_number_or_datetime c.2 = true) (columns d) with
  | [] => columns d
  | sel => sel
  end.

(** [sorted(..., key=len)] is stable. *)
Fixpoint insert_by_len (x : list string) (l : list (list string)) : list (list string) :=
  match l with
  | [] => [x]
  | y :: l' => if length x <=? length y then x :: y :: l' else y :: insert_by_len x l'
  end.

Definition sorted_by_len (l : list (list string)) : list (list string) :=
  foldr insert_by_len [] l.

Definition add_unseen (seen : list string) (name : string) : list string :=
  if bool_decide (name ∈ seen) then seen else seen ++ [name].

Definition reorder_columns (ldesc : list (list (string * Cell V))) : list string :=
  foldl (fun acc idx => foldl add_unseen acc idx) [] (sorted_by_len (map (map fst) ldesc)).

(** [x.reindex(col_names)]: a label that [x] lacks gets NaN. *)
Definition reindex (labels : list string) (x : list (string * Cell V)) : list (Cell V) :=
  map (fun l => match find (fun p => bool_decide (p.1 = l)) x with
                | Some p => p.2
                | None => CFloat f_nan
                end) labels.

Fixpoint floats_of (cs : list (Cell V)) : option (list V) :=
  match cs with
  | [] => Some []
  | CFloat v :: cs' => option_map (cons v) (floats_of cs')
  | _ => None
  end.

(** The dtype a column gets from its values: float64 when they are all
    floats, object otherwise. *)
Definition pack (cs : list (Cell V)) : Series :=
  match floats_of cs with Some xs => Float64 xs | None => Object cs end.

Definition describe (d : DataFrame) : result DataFrame :=
  match columns d with
  | [] => Raise (ValueError "Cannot describe a DataFrame without columns")
  | _ =>
      let data := select_data d in
      let ldesc := map (fun c => describe_1d c.2) data in
      let col_names := reorder_columns ldesc in
      Ok {| index := Labels col_names;
            columns := zip (map fst data) (map (fun x => pack (reindex col_names x)) ldesc) |}
  end.

(** [d.reset_index()]: the index becomes the first column, called [index],
    or [level_0] when [index] is taken; the result is a new frame. *)
Definition index_values (i : Index) : Series :=
  match i with
  | RangeIndex n => Int64 (map Z.of_nat (seq 0 n))
  | Labels ls => Object (map CStr ls)
  end.

Definition reset_index (d : DataFrame) : result DataFrame :=
  let name := if contains d "index" then "level_0" else "index" in
  if contains d name
  then Raise (ValueError ("cannot insert " ++ name ++ ", already exists"))
  else Ok {| index := RangeIndex (nrows d);
             columns := (name, index_values (index d)) :: columns d |}.

(** [d.columns = labels], as a function of the old frame. *)
Definition set_columns (d : DataFrame) (labels : list string) : result DataFrame :=
  if length labels =? length (columns d)
  then Ok {| index := index d; columns := zip labels (map snd (columns d)) |}
  else Raise (ValueError "Length mismatch").

(** [str] on a column label, which is a string already. *)
Definition str (label : string) : string := label.

(** [d.to_dict("records")]: one dict per row; a repeated label keeps its
    last value. *)
Definition record_at (d : DataFrame) (i : nat) : gmap string (Cell V) :=
  foldl (fun m c => <[c.1 := nth i (cells c.2) CNone]> m) ∅ (columns d).

Definition to_dict_records (d : DataFrame) : list (gmap string (Cell V)) :=
  map (record_at d) (seq 0 (nrows d)).

End Frames.
Arguments Series V : clear implicits.
Arguments Selection V : clear implicits.
Arguments DataFrame V : clear implicits.
End pandas.

(** ** plotly: figures as values

    A figure is created and filled inside one call and is not shared, so
    [add_trace] and [update_layout] are functional updates. *)

Module plotly.
Section Figures.
Context {V : Type}.

Inductive Trace :=
| Scatter (x y : pandas.Series V) (mode line_color name : string)
| Bar (x : list nat) (y : list V) (marker_color : string).

Record Layout := mkLayout {
  title : option string;
  xaxis_title : option string;
  yaxis_title : option string;
  template : option string
}.

Record Figure := mkFigure {
  data : list Trace;
  layout : Layout
}.

Definition no_layout : Layout := mkLayout None None None None.

(** [go.Figure()] *)
Definition new_figure : Figure := mkFigure [] no_layout.

Definition add_trace (fig : Figure) (t : Trace) : Figure :=
  mkFigure (data fig ++ [t]) (layout fig).

Definition override (new old : option string) : option string :=
  match new with Some _ => new | None => old end.

(** [fig.update_layout(title=..., ...)]: the keywords given replace the old
    values. *)
Definition update_layout (fig : Figure) (kw : Layout) : Figure :=
  mkFigure (data fig)
    (mkLayout (override (title kw) (title (layout fig)))
              (override (xaxis_title kw) (xaxis_title (layout fig)))
              (override (yaxis_title kw) (yaxis_title (layout fig)))
              (override (template kw) (template (layout fig)))).

(** The [y] of a Scatter must be one-dimensional. *)
Definition scatter_y (sel : pandas.Selection V) : result (pandas.Series V) :=
  match sel with
  | pandas.OneSeries s => Ok s
  | pandas.SubFrame _ => Raise (ValueError "Invalid value for the y property of scatter")
  end.

End Figures.
Arguments Trace V : clear implicits.
Arguments Figure V : clear implicits.
End plotly.

(** ** numpy *)

Module np.
(** [np.arange(n)] *)
Definition arange (n : nat) : list nat := seq 0 n.
End np.

(** ** statsmodels.tsa.stattools (0.14) *)

Module statsmodels.
Section Stattools.
Context {V : Type} `{Numerics V}.

Definition fsum (xs : list V) : V := foldl f_add (f_of_Z 0) xs.

Definition fmean (xs : list V) : V := f_div (fsum xs) (f_of_Z (Z.of_nat (length xs))).

(** [array_like(x, "x")]: the series as a one-dimensional float array. *)
Definition array_like (s : pandas.Series V) : result (list V) :=
  match s with
  | pandas.Float64 xs => Ok xs
  | pandas.Int64 xs => Ok (map f_of_Z xs)
  | pandas.Datetime64 _ => Raise (TypeError "float() argument must be a string or a real number")
  | pandas.Object cs =>
      mapR (fun c => match c with
                     | CFloat v => Ok v
                     | CInt z => Ok (f_of_Z z)
                     | CNone => Ok f_nan
                     | _ => Raise (TypeError "float() argument must be a string or a real number")
                     end) cs
  end.

(** [acovf(x, adjusted=False, demean=True)]: one autocovariance per lag
    [0 .. nobs-1], each divided by [nobs]. *)
Definition acovf (x : list V) : list V :=
  let n := length x in
  let m := fmean x in
  let xo := map (fun v => f_sub v m) x in
  map (fun k => f_div (fsum (zip_with f_mul (take (n - k) xo) (drop k xo)))
                      (f_of_Z (Z.of_nat n)))
      (seq 0 n).

(** [acf(x, nlags=nlags)]: [avf[:nlags + 1] / avf[0]].  On an empty series
    [acovf] raises ValueError. *)
Definition acf (x : list V) (nlags : nat) : result (list V) :=
  let avf := acovf x in
  match avf with
  | [] => Raise (ValueError "negative dimensions are not allowed")
  | avf0 :: _ => Ok (map (fun a => f_div a avf0) (take (nlags + 1) avf))
  end.

(** [pacf_yw(x, nlags, method="adjusted")] *)
Definition pacf_yw (x : list V) (nlags : nat) : list V :=
  f_one :: map (fun k => k_yule_walker x k) (seq 1 nlags).

(** [pacf(x, nlags=nlags)]: at least one lag is computed
    ([nlags = max(nlags, 1)]), and lags beyond half of the sample are
    refused.  The message of the ValueError is cut after its first
    sentence; the second one quotes [nlags] and [nobs // 2]. *)
Definition pacf (x : list V) (nlags : nat) : result (list V) :=
  let nlags := Nat.max nlags 1 in
  if length x / 2 <? nlags
  then Raise (ValueError "Can only compute partial correlations for lags up to 50% of the sample size.")
  else Ok (pacf_yw x nlags).

End Stattools.
End statsmodels.

(** ** dash: the table component *)

Module dash.
Section Table.
Context {V : Type}.

Record DataTable := mkDataTable {
  data : list (gmap string (Cell V));
  columns : list (string * string);           (* name, id *)
  style_table : list (string * string);
  style_cell : list (string * string);
  style_header : list (string * string)
}.

End Table.
Arguments DataTable V : clear implicits.
End dash.

(** ** The store of frames

    A pandas frame is an object: [df.describe()] and [d.reset_index()] build
    new ones, [d.columns = ...] changes the one it is applied to.  Frames are
    therefore kept in a store and named by location.  A computation takes the
    store and gives back a value or an exception, together with the store as
    it is at that moment: what was written before a [raise] stays written. *)

Definition loc := positive.

Section Store.
Context {V : Type} `{Numerics V}.

Definition store : Type := gmap loc (pandas.DataFrame V).

Definition M (A : Type) : Type := store -> result A * store.

#[global] Instance M_ret : MRet M := fun A a σ => (Ok a, σ).
#[global] Instance M_bind : MBind M := fun A B f m σ =>
  match m σ with
  | (Ok a, σ') => f a σ'
  | (Raise e, σ') => (Raise e, σ')
  end.

Definition liftR {A} (r : result A) : M A := fun σ => (r, σ).

Definition load (l : loc) : M (pandas.DataFrame V) := fun σ =>
  match σ !! l with
  | Some d => (Ok d, σ)
  | None => (Raise NameError, σ)
  end.

Definition alloc (d : pandas.DataFrame V) : M loc := fun σ =>
  let l := fresh (dom σ) in (Ok l, <[l := d]> σ).

Definition assign (l : loc) (d : pandas.DataFrame V) : M unit := fun σ =>
  (Ok tt, <[l := d]> σ).

(** Frame methods, by reference. *)

Definition df_contains (l : loc) (name : string) : M bool :=
  d ← load l; mret (pandas.contains d name).

Definition df_getitem (l : loc) (name : string) : M (pandas.Selection V) :=
  d ← load l; liftR (pandas.getitem d name).

Definition df_describe (l : loc) : M loc :=
  d ← load l; r ← liftR (pandas.describe d); alloc r.

Definition df_reset_index (l : loc) : M loc :=
  d ← load l; r ← liftR (pandas.reset_index d); alloc r.

Definition df_columns (l : loc) : M (list string) :=
  d ← load l; mret (pandas.names d).

Definition df_set_columns (l : loc) (labels : list string) : M unit :=
  d ← load l; r ← liftR (pandas.set_columns d labels); assign l r.

Definition df_to_dict_records (l : loc) : M (list (gmap string (Cell V))) :=
  d ← load l; mret (pandas.to_dict_records d).

End Store.
Arguments store V : clear implicits.
Arguments M V A : clear implicits.

(** ** app.py *)

Module app.
Section App.
Context {V : Type} `{Numerics V}.

(** The module-level name [df]; no function rebinds it. *)
Variable df : loc.

Definition colors_text : string := "#1a1a1a".
Definition colors_accent : string := "#2d572c".
Definition colors_secondary : string := "#ffd700".
Definition colors_table_bg : string := "#ffffff".

Definition default_nlags : nat := 40.

Definition generar_acf_pacf (series : pandas.Series V) (nlags : nat)
  : M V (plotly.Figure V * plotly.Figure V) :=
  acf_vals ← liftR (x ← statsmodels.array_like series; statsmodels.acf x nlags);
  pacf_vals ← liftR (x ← statsmodels.array_like series; statsmodels.pacf x nlags);
  let lags := np.arange (length acf_vals) in
  let acf_fig := plotly.new_figure in
  let acf_fig := plotly.add_trace acf_fig (plotly.Bar lags acf_vals colors_accent) in
  let acf_fig := plotly.update_layout acf_fig
    (plotly.mkLayout (Some "ACF del Precio") None None (Some "plotly_white")) in
  let pacf_fig := plotly.new_figure in
  let pacf_fig := plotly.add_trace pacf_fig (plotly.Bar lags pacf_vals colors_secondary) in
  let pacf_fig := plotly.update_layout pacf_fig
    (plotly.mkLayout (Some "PACF del Precio") None None (Some "plotly_white")) in
  mret (acf_fig, pacf_fig).

(** [generar_acf_pacf(df['Cierre'].dropna())], run once when the module is
    loaded. *)
Definition startup_acf_pacf : M V (plotly.Figure V * plotly.Figure V) :=
  sel ← df_getitem df "Cierre";
  match sel with
  | pandas.OneSeries s => generar_acf_pacf (pandas.dropna s) default_nlags
  | pandas.SubFrame _ => liftR (Raise (ValueError "x is required to have ndim 1 but has ndim 2"))
  end.

Definition update_graph (price_type : string) : M V (plotly.Figure V) :=
  let fig := plotly.new_figure in
  present ← df_contains df price_type;
  cond ← (if present : bool
          then sel ← df_getitem df price_type; liftR (pandas.not_isnull_all sel)
          else mret false);
  if cond : bool then
    fecha ← df_getitem df "Fecha";
    x ← liftR (pandas.to_datetime fecha);
    sel ← df_getitem df price_type;
    y ← liftR (plotly.scatter_y sel);
    let fig := plotly.add_trace fig (plotly.Scatter x y "lines" colors_text price_type) in
    let fig := plotly.update_layout fig
      (plotly.mkLayout (Some "📈 Evolución del Precio de Bitcoin (USD)")
                       (Some "Fecha") (Some "Precio (USD)") (Some "plotly_white")) in
    mret fig
  else
    let fig := plotly.update_layout fig
      (plotly.mkLayout (Some "❌ Datos no disponibles") None None (Some "plotly_white")) in
    mret fig.

Definition update_table (_ : string) : M V (dash.DataTable V) :=
  described ← df_describe df;
  resumen ← df_reset_index described;
  labels ← df_columns resumen;
  _ ← df_set_columns resumen (map pandas.str labels);
  records ← df_to_dict_records resumen;
  labels' ← df_columns resumen;
  mret (dash.mkDataTable records
          (map (fun i => (i, i)) labels')
          [("overflowX", "auto")]
          [("textAlign", "center"); ("backgroundColor", colors_table_bg); ("color", colors_text)]
          [("backgroundColor", colors_accent); ("color", "black"); ("fontWeight", "bold")]).

End App.
End app.

(** ** An exact instance of the numerics

    Rationals in lowest terms, with NaN added.  It makes the model run on
    concrete frames.  Square roots are not rational, so [std] is NaN here;
    strings are not parsed as dates. *)

Module Exact.

Definition num : Type := option Q.

Definition lift2 (f : Q -> Q -> Q) (a b : num) : num :=
  match a, b with
  | Some x, Some y => Some (Qred (f x y))
  | _, _ => None
  end.

Definition div (a b : num) : num :=
  match a, b with
  | Some x, Some y => if Qeq_bool y 0 then None else Some (Qred (x / y))
  | _, _ => None
  end.

Definition regular (a : num) : bool :=
  match a with
  | Some x => negb (Qeq_bool x 0)
  | None => false
  end.

Definition isnan (a : num) : bool :=
  match a with Some _ => false | None => true end.

Definition of_Z (z : Z) : num := Some (inject_Z z).

Definition present (xs : list num) : list Q := omap id xs.

Fixpoint insert_sorted (x : Q) (l : list Q) : list Q :=
  match l with
  | [] => [x]
  | y :: l' => if Qle_bool x y then x :: y :: l' else y :: insert_sorted x l'
  end.

Definition qsum (xs : list Q) : Q := foldl Qplus 0%Q xs.

(** Quantile by linear interpolation between the two nearest ranks. *)
Definition quantile (q : Q) (xs : list Q) : num :=
  match foldr insert_sorted [] xs with
  | [] => None
  | (x0 :: _) as sorted =>
      let pos := (q * inject_Z (Z.of_nat (length sorted - 1)))%Q in
      let lo := Qfloor pos in
      let a := nth (Z.to_nat lo) sorted x0 in
      let b := nth (Z.to_nat lo + 1) sorted a in
      Some (Qred (a + (b - a) * (pos - inject_Z lo)))
  end.

Definition describe_Q (label : string) (xs : list Q) : num :=
  match xs with
  | [] => None
  | x0 :: _ =>
      if bool_decide (label = "mean") then Some (Qred (qsum xs / inject_Z (Z.of_nat (length xs))))
      else if bool_decide (label = "min") then Some (foldl Qmin x0 xs)
      else if bool_decide (label = "max") then Some (foldl Qmax x0 xs)
      else if bool_decide (label = "25%") then quantile (1 # 4) xs
      else if bool_decide (label = "50%") then quantile (1 # 2) xs
      else if bool_decide (label = "75%") then quantile (3 # 4) xs
      else None
  end.

Definition describe_num (label : string) (xs : list num) : num :=
  describe_Q label (present xs).

Definition describe_time (label : string) (ts : list (option Z)) : option Z :=
  option_map Qfloor (describe_Q label (map inject_Z (omap id ts))).

Definition cell_eqb (a b : Cell num) : bool :=
  match a, b with
  | CFloat (Some x), CFloat (Some y) => Qeq_bool x y
  | CInt x, CInt y => Z.eqb x y
  | CTime (Some x), CTime (Some y) => Z.eqb x y
  | CStr x, CStr y => bool_decide (x = y)
  | _, _ => false
  end.

Definition occurrences (cs : list (Cell num)) (c : Cell num) : nat :=
  length (filter (fun c' => cell_eqb c c' = true) cs).

Fixpoint distinct (cs : list (Cell num)) : list (Cell num) :=
  match cs with
  | [] => []
  | c :: cs' =>
      if existsb (cell_eqb c) cs' then distinct cs'
      else if cell_eqb c c then c :: distinct cs' else distinct cs'
  end.

(** The most frequent value; of two equally frequent ones, the later. *)
Definition top (cs : list (Cell num)) : Cell num :=
  foldl (fun best c => if occurrences cs best <=? occurrences cs c then c else best)
        (CFloat None) (distinct cs).

Definition describe_obj (label : string) (cs : list (Cell num)) : Cell num :=
  if bool_decide (label = "unique") then CInt (Z.of_nat (length (distinct cs)))
  else if bool_decide (label = "top") then top cs
  else match distinct cs with
       | [] => CFloat None
       | _ => CInt (Z.of_nat (occurrences cs (top cs)))
       end.

(** Durbin-Levinson recursion on the autocorrelations with the adjusted
    denominators [n - k]; the result is the last coefficient of order [k]. *)
Definition adjusted_r (x : list num) (k : nat) : num :=
  let n := length x in
  let m := div (foldl (lift2 Qplus) (of_Z 0) x) (of_Z (Z.of_nat n)) in
  let xo := map (fun v => lift2 Qminus v m) x in
  div (foldl (lift2 Qplus) (of_Z 0) (zip_with (lift2 Qmult) (take (n - k) xo) (drop k xo)))
      (of_Z (Z.of_nat (n - k))).

Definition dot (a b : list num) : num :=
  foldl (lift2 Qplus) (of_Z 0) (zip_with (lift2 Qmult) a b).

Fixpoint levinson (r : nat -> num) (k : nat) : list num :=
  match k with
  | 0 => []
  | S k' =>
      let phi := levinson r k' in
      let rs := map r (seq 1 k') in
      let last := div (lift2 Qminus (r (S k')) (dot phi (rev rs)))
                      (lift2 Qminus (r 0) (dot phi rs)) in
      zip_with (fun p q => lift2 Qminus p (lift2 Qmult last q)) phi (rev phi) ++ [last]
  end.

Definition yule_walker (x : list num) (k : nat) : num :=
  List.last (levinson (adjusted_r x) k) None.

Definition to_timestamp (c : Cell num) : result (option Z) :=
  match c with
  | CFloat (Some x) => Ok (Some (Qfloor x))
  | CFloat None => Ok None
  | CInt z => Ok (Some z)
  | CTime t => Ok t
  | CStr s => Raise (ValueError ("Unknown datetime string format: " ++ s))
  | CNone => Ok None
  end.

#[global] Instance numerics : Numerics num.
Proof.
  refine {| f_nan := None; f_isnan := isnan; f_one := Some 1%Q; f_of_Z := of_Z;
            f_add := lift2 Qplus; f_sub := lift2 Qminus; f_mul := lift2 Qmult;
            f_div := div; f_regular := regular;
            k_describe_num := describe_num; k_describe_time := describe_time;
            k_describe_obj := describe_obj; k_yule_walker := yule_walker;
            k_to_timestamp := to_timestamp |}.
  intros [x|]; simpl; [|discriminate].
  destruct (Qeq_bool x 0) eqn:E; [discriminate|]. intros _.
  f_equal. change (1%Q) with (Qred 1). apply Qred_complete.
  apply Qmult_inv_r. apply Qeq_bool_neq. exact E.
Defined.

End Exact.

(** ** The vocabulary of the specification *)

Section Vocabulary.
Context {V : Type} `{Numerics V}.

(** The six display names given to the downloaded columns. *)
Definition fields : list string :=
  ["Fecha"; "Apertura"; "Maximo"; "Minimo"; "Cierre"; "Volumen"].

Definition is_datetime (s : pandas.Series V) : bool :=
  match s with pandas.Datetime64 _ => true | _ => false end.

Definition is_number (s : pandas.Series V) : bool :=
  match s with pandas.Float64 _ | pandas.Int64 _ => true | _ => false end.

Definition dtype_ok (c : string * pandas.Series V) : bool :=
  if bool_decide (c.1 = "Fecha") then is_datetime c.2 else is_number c.2.

(** PriceSeries: the frame [df] as the preparation leaves it.  Its columns
    are the six fields, in any order; [Fecha] holds dates, the others
    numbers; every column has one entry per row. *)
Record PriceSeries (d : pandas.DataFrame V) : Prop := {
  ps_fields : pandas.names d ≡ₚ fields;
  ps_dtypes : Forall (fun c => dtype_ok c = true) (pandas.columns d);
  ps_rows : Forall (fun c => pandas.series_len c.2 = pandas.nrows d) (pandas.columns d)
}.

(** The two figures [update_graph] can return. *)
Definition placeholder_figure : plotly.Figure V :=
  plotly.mkFigure []
    (plotly.mkLayout (Some "❌ Datos no disponibles") None None (Some "plotly_white")).

Definition line_figure (x y : pandas.Series V) (name : string) : plotly.Figure V :=
  plotly.mkFigure [plotly.Scatter x y "lines" app.colors_text name]
    (plotly.mkLayout (Some "📈 Evolución del Precio de Bitcoin (USD)")
                     (Some "Fecha") (Some "Precio (USD)") (Some "plotly_white")).

(** The [y] of the line a figure shows, when it shows one. *)
Definition line_series (fig : plotly.Figure V) : option (pandas.Series V) :=
  match plotly.data fig with
  | [plotly.Scatter _ y _ _ _] => Some y
  | _ => None
  end.

(** The figures of [generar_acf_pacf]. *)
Definition bar_figure (lags : list nat) (vals : list V) (color title : string)
  : plotly.Figure V :=
  plotly.mkFigure [plotly.Bar lags vals color]
    (plotly.mkLayout (Some title) None None (Some "plotly_white")).

(** A series is admissible for [nlags] lags when it is not empty and
    [pacf] accepts the lag count. *)
Definition admissible (x : list V) (nlags : nat) : bool :=
  (0 <? length x) && (Nat.max nlags 1 <=? length x / 2).


(** What [update_table] returns, as a function of the frame bound to [df]. *)
Definition summary_table (d : pandas.DataFrame V) : result (dash.DataTable V) :=
  described ← pandas.describe d;
  resumen ← pandas.reset_index described;
  resumen' ← pandas.set_columns resumen (map pandas.str (pandas.names resumen));
  Ok (dash.mkDataTable (pandas.to_dict_records resumen')
        (map (fun i => (i, i)) (pandas.names resumen'))
        [("overflowX", "auto")]
        [("textAlign", "center"); ("backgroundColor", app.colors_table_bg);
         ("color", app.colors_text)]
        [("backgroundColor", app.colors_accent); ("color", "black");
         ("fontWeight", "bold")]).

(** The row labels [describe_1d] gives a column of dates or numbers. *)
Definition stat_index (c : string * pandas.Series V) : list string :=
  if is_datetime c.2 then pandas.timestamp_index else pandas.numeric_index.

(** The row labels of [describe()] on a frame that has both kinds of
    column. *)
Definition described_index : list string :=
  ["count"; "mean"; "min"; "25%"; "50%"; "75%"; "max"; "std"].

(** The statistic named by each row of a table. *)
Definition row_labels (t : dash.DataTable V) : list (option (Cell V)) :=
  map (fun r => r !! "index") (dash.data t).

End Vocabulary.

(** ** Sample data *)

Module Sample.
Import pandas.

Definition q (z : Z) : Exact.num := Some (inject_Z z).

(** Three days; one closing price is missing and no low was recorded. *)
Definition prices : DataFrame Exact.num :=
  {| index := RangeIndex 3;
     columns := [("Fecha", Datetime64 [Some 100%Z; Some 200%Z; Some 300%Z]);
                 ("Apertura", Float64 [q 9; q 10; q 11]);
                 ("Maximo", Float64 [q 11; q 13; q 14]);
                 ("Minimo", Float64 [None; None; None]);
                 ("Cierre", Float64 [q 10; None; q 12]);
                 ("Volumen", Int64 [5%Z; 6%Z; 7%Z])] |}.

Definition df : loc := 1%positive.

Definition store0 : store Exact.num := {[ df := prices ]}.

(** Closing prices 1, 2, ..., n. *)
Definition ramp (n : nat) : list Exact.num :=
  map (fun k => q (Z.of_nat k)) (seq 1 n).

End Sample.

(** ** app.py: the module-level code

    The statements that run when the module is loaded: the download is
    flattened and renamed into [df], the two autocorrelation figures are
    computed from it, and the dropdown of the layout is declared. *)

Module startup.
Section Startup.
Context {V : Type} `{Numerics V}.

(** A column label of the downloaded frame: a string, or a tuple when the
    columns form a MultiIndex such as [('Close', 'BTC-USD')]. *)
Inductive Label :=
| LStr (s : string)
| LTuple (parts : list string).

(** The frame [btc.reset_index()]: the download with its date index turned
    into the first column. *)
Record RawFrame := mkRawFrame {
  raw_index : pandas.Index;
  raw_columns : list (Label * pandas.Series V)
}.

(** [col[0] if isinstance(col, tuple) else col] *)
Definition flatten_label (col : Label) : result string :=
  match col with
  | LStr s => Ok s
  | LTuple (part :: _) => Ok part
  | LTuple [] => Raise IndexError
  end.

(** [df.columns = [... for col in df.columns]], as a function of the frame. *)
Definition flattened (raw : RawFrame) : result (pandas.DataFrame V) :=
  labels ← mapR flatten_label (map fst (raw_columns raw));
  Ok {| pandas.index := raw_index raw;
        pandas.columns := zip labels (map snd (raw_columns raw)) |}.

(** The dict given to [df.rename(columns=...)]. *)
Definition rename_map : list (string * string) :=
  [("Date", "Fecha"); ("Open", "Apertura"); ("High", "Maximo");
   ("Low", "Minimo"); ("Close", "Cierre"); ("Volume", "Volumen")].

Fixpoint dict_get (m : list (string * string)) (key : string) : option string :=
  match m with
  | [] => None
  | (k, v) :: m' => if bool_decide (k = key) then Some v else dict_get m' key
  end.

(** A label that is a key of the dict is replaced, any other is kept. *)
Definition rename_label (m : list (string * string)) (label : string) : string :=
  default label (dict_get m label).

(** [d.rename(columns=m)], as a function of the frame. *)
Definition rename (d : pandas.DataFrame V) (m : list (string * string))
  : pandas.DataFrame V :=
  {| pandas.index := pandas.index d;
     pandas.columns := map (fun c => (rename_label m c.1, c.2)) (pandas.columns d) |}.

(** [d.rename(columns=m, inplace=True)] *)
Definition df_rename_inplace (l : loc) (m : list (string * string)) : M V unit :=
  d ← load l; assign l (rename d m).

(** Lines 14 to 24.  The store keeps frames whose labels are strings, so
    the frame of line 13 enters it once line 14 has flattened its labels; it
    is then renamed where it is.  When line 14 raises, [df] is bound all the
    same, to the frame of line 13 with its labels as they were: that frame
    is not in the store, and the store component of a raising run says
    nothing about it. *)
Definition prepare (raw : RawFrame) : M V loc :=
  d ← liftR (flattened raw);
  df ← alloc d;
  _ ← df_rename_inplace df rename_map;
  mret df.

(** The module up to the figures: [df], then [acf_fig, pacf_fig]. *)
Definition main (raw : RawFrame)
  : M V (loc * (plotly.Figure V * plotly.Figure V)) :=
  df ← prepare raw;
  figs ← app.startup_acf_pacf df;
  mret (df, figs).

End Startup.
Arguments Label : clear implicits.
Arguments RawFrame V : clear implicits.

(** The dropdown [price-type]: its options as (label, value) pairs, and the
    value it starts with. *)
Definition price_type_options : list (string * string) :=
  map (fun i => (i, i)) ["Apertura"; "Maximo"; "Minimo"; "Cierre"].

Definition price_type_value : string := "Cierre".

End startup.

(** The columns of a download, once flattened: the date and the five
    series of a daily bar. *)
Section Download.
Context {V : Type} `{Numerics V}.

Definition ohlcv : list string :=
  ["Date"; "Open"; "High"; "Low"; "Close"; "Volume"].

Definition raw_dtype_ok (c : string * pandas.Series V) : bool :=
  if bool_decide (c.1 = "Date") then is_datetime c.2 else is_number c.2.

Record Download (d : pandas.DataFrame V) : Prop := {
  dl_fields : pandas.names d ≡ₚ ohlcv;
  dl_dtypes : Forall (fun c => raw_dtype_ok c = true) (pandas.columns d);
  dl_rows : Forall (fun c => pandas.series_len c.2 = pandas.nrows d) (pandas.columns d)
}.

End Download.

Module SampleDownload.
Import pandas.

(** A download of [n] days from a single ticker, with tuple labels. *)
Definition raw (n : nat) : startup.RawFrame Exact.num :=
  {| startup.raw_index := RangeIndex n;
     startup.raw_columns :=
       [(startup.LTuple ["Date"; ""], Datetime64 (map (fun k => Some (Z.of_nat k)) (seq 0 n)));
        (startup.LTuple ["Open"; "BTC-USD"], Float64 (Sample.ramp n));
        (startup.LTuple ["High"; "BTC-USD"], Float64 (Sample.ramp n));
        (startup.LTuple ["Low"; "BTC-USD"], Float64 (Sample.ramp n));
        (startup.LTuple ["Close"; "BTC-USD"], Float64 (Sample.ramp n));
        (startup.LTuple ["Volume"; "BTC-USD"], Int64 (map Z.of_nat (seq 0 n)))] |}.

(** The same download once its labels are flattened, and once renamed. *)
Definition flat (n : nat) : DataFrame Exact.num :=
  {| index := RangeIndex n;
     columns :=
       [("Date", Datetime64 (map (fun k => Some (Z.of_nat k)) (seq 0 n)));
        ("Open", Float64 (Sample.ramp n));
        ("High", Float64 (Sample.ramp n));
        ("Low", Float64 (Sample.ramp n));
        ("Close", Float64 (Sample.ramp n));
        ("Volume", Int64 (map Z.of_nat (seq 0 n)))] |}.

Definition prices (n : nat) : DataFrame Exact.num :=
  startup.rename (flat n) startup.rename_map.

(** A frame with an empty tuple for a label, and a download that brought
    no prices. *)
Definition bad_label : startup.RawFrame Exact.num :=
  {| startup.raw_index := RangeIndex 0;
     startup.raw_columns := [(startup.LStr "Date", Datetime64 []);
                             (startup.LTuple [], Float64 [])] |}.

Definition no_prices : startup.RawFrame Exact.num :=
  {| startup.raw_index := RangeIndex 0;
     startup.raw_columns := [(startup.LStr "Date", Datetime64 [])] |}.

Definition no_prices_flat : DataFrame Exact.num :=
  {| index := RangeIndex 0; columns := [("Date", Datetime64 [])] |}.

(** Two columns under one label, and no column of dates. *)
Definition twice : DataFrame Exact.num :=
  {| index := RangeIndex 2;
     columns := [("Cierre", Float64 [Sample.q 1; Sample.q 2]);
                 ("Cierre", Float64 [Sample.q 3; Sample.q 4])] |}.

Definition no_dates : DataFrame Exact.num :=
  {| index := RangeIndex 2;
     columns := [("Cierre", Float64 [Sample.q 1; Sample.q 2])] |}.

Definition no_columns : DataFrame Exact.num :=
  {| index := RangeIndex 2; columns := [] |}.

Definition no_rows : DataFrame Exact.num :=
  {| index := RangeIndex 0;
     columns := [("Fecha", Datetime64 []); ("Apertura", Float64 []);
                 ("Maximo", Float64 []); ("Minimo", Float64 []);
                 ("Cierre", Float64 []); ("Volumen", Int64 [])] |}.

(** A store that holds one frame, under [df]. *)
Definition sample_store (d : DataFrame Exact.num) : store Exact.num :=
  {[ Sample.df := d ]}.

End SampleDownload.

(** The frame [resumen] of [update_table] for a frame that has dates and
    numbers: the labels of the statistics come first, then one column of
    statistics per column of [df]. *)
Section Resumen.
Context {V : Type} `{Numerics V}.

Definition described_column (s : pandas.Series V) : pandas.Series V :=
  pandas.pack (pandas.reindex described_index (pandas.describe_1d s)).

Definition resumen_frame (d : pandas.DataFrame V) : pandas.DataFrame V :=
  {| pandas.index := pandas.RangeIndex 8;
     pandas.columns :=
       ("index", pandas.Object (map CStr described_index))
       :: map (fun c => (c.1, described_column c.2)) (pandas.columns d) |}.

End Resumen.

(** The exception of [pacf] when the lag count is above half of the
    sample. *)
Definition pacf_refusal : exn :=
  ValueError "Can only compute partial correlations for lags up to 50% of the sample size.".

(** * Properties *)

(** Closed decidable facts about names are settled by evaluation. *)
Ltac by_evaluation := apply (bool_decide_unpack _); vm_compute; exact I.

(** ** Frames *)

Section FrameFacts.
Context {V : Type} `{Numerics V}.
Implicit Types (d : pandas.DataFrame V) (s : pandas.Series V).

Lemma filter_name_absent (cols : list (string * pandas.Series V)) name :
  name ∉ map fst cols -> filter (fun c => c.1 = name) cols = [].
Proof.
  induction cols as [|[k v] cols IH]; intros Hno; [done|].
  simpl in Hno. apply not_elem_of_cons in Hno as [Hne Hno].
  rewrite filter_cons. simpl. rewrite decide_False by congruence. auto.
Qed.

Lemma filter_name_unique (cols : list (string * pandas.Series V)) name s :
  NoDup (map fst cols) -> (name, s) ∈ cols ->
  filter (fun c => c.1 = name) cols = [(name, s)].
Proof.
  induction cols as [|[k v] cols IH]; intros Hnd Hin.
  - inversion Hin.
  - simpl in Hnd. apply list.NoDup_cons in Hnd as [Hk Hnd].
    rewrite filter_cons. simpl. destruct (decide (k = name)) as [->|Hne].
    + rewrite filter_name_absent by done.
      apply elem_of_cons in Hin as [Heq|Hin]; [congruence|].
      exfalso. apply Hk. apply list_elem_of_fmap. exists (name, s). done.
    + apply elem_of_cons in Hin as [Heq|Hin]; [congruence|]. auto.
Qed.

Lemma getitem_unique d name s :
  NoDup (pandas.names d) -> (name, s) ∈ pandas.columns d ->
  pandas.getitem d name = Ok (pandas.OneSeries s).
Proof.
  intros Hnd Hin. unfold pandas.getitem.
  rewrite (filter_name_unique _ name s); done.
Qed.

Lemma getitem_absent d name :
  name ∉ pandas.names d -> pandas.getitem d name = Raise (KeyError name).
Proof.
  intros Hno. unfold pandas.getitem. rewrite filter_name_absent; done.
Qed.

Lemma contains_true d name : name ∈ pandas.names d -> pandas.contains d name = true.
Proof. intros. unfold pandas.contains. by apply bool_decide_eq_true_2. Qed.

Lemma contains_false d name : name ∉ pandas.names d -> pandas.contains d name = false.
Proof. intros. unfold pandas.contains. by apply bool_decide_eq_false_2. Qed.

Lemma column_name d name s : (name, s) ∈ pandas.columns d -> name ∈ pandas.names d.
Proof. intros Hin. apply list_elem_of_fmap. exists (name, s). done. Qed.

Lemma name_column d name : name ∈ pandas.names d -> exists s, (name, s) ∈ pandas.columns d.
Proof.
  intros Hin. apply list_elem_of_fmap in Hin as [[k s] [-> Hin]]. by exists s.
Qed.

(** A non-null entry takes one row: [count] never exceeds the length. *)
Lemma count_le_len s : pandas.count s <= pandas.series_len s.
Proof. unfold pandas.count, pandas.series_len. apply length_filter. Qed.

Lemma isnull_all_count s : pandas.isnull_all s = true <-> pandas.count s = 0.
Proof.
  unfold pandas.isnull_all, pandas.count. induction (pandas.cells s) as [|c cs IH]; [done|].
  simpl. rewrite filter_cons. destruct (pandas.cell_isnull c) eqn:E; simpl.
  - exact IH.
  - split; [discriminate|lia].
Qed.

(** Facts about a PriceSeries. *)

Lemma PriceSeries_NoDup d : PriceSeries d -> NoDup (pandas.names d).
Proof.
  intros [Hp _ _]. rewrite Hp. by_evaluation.
Qed.

Lemma PriceSeries_Fecha d :
  PriceSeries d -> exists ts, ("Fecha", pandas.Datetime64 ts) ∈ pandas.columns d.
Proof.
  intros Hps. destruct (name_column d "Fecha") as [s Hin].
  { rewrite (ps_fields _ Hps). by_evaluation. }
  pose proof (ps_dtypes _ Hps) as Hdt. rewrite list.Forall_forall in Hdt.
  specialize (Hdt _ Hin). unfold dtype_ok in Hdt. simpl in Hdt.
  destruct s; try discriminate. by exists xs.
Qed.

Lemma PriceSeries_rows d name s :
  PriceSeries d -> (name, s) ∈ pandas.columns d -> pandas.series_len s = pandas.nrows d.
Proof.
  intros Hps Hin. pose proof (ps_rows _ Hps) as Hr. rewrite list.Forall_forall in Hr.
  exact (Hr _ Hin).
Qed.

End FrameFacts.

(** ** The line-series selector *)

Section UpdateGraph.
Context {V : Type} `{Numerics V}.
Variable df : loc.
Implicit Types (d : pandas.DataFrame V) (s : pandas.Series V) (σ : store V).

Ltac run_graph Hσ :=
  unfold app.update_graph, df_contains, df_getitem, liftR, load;
  unfold mbind, mret, M_bind, M_ret; rewrite Hσ; simpl.

Lemma update_graph_absent σ d field :
  σ !! df = Some d -> field ∉ pandas.names d ->
  app.update_graph df field σ = (Ok placeholder_figure, σ).
Proof.
  intros Hσ Hno. run_graph Hσ. rewrite contains_false by done. reflexivity.
Qed.

Lemma update_graph_all_null σ d field s :
  σ !! df = Some d -> NoDup (pandas.names d) ->
  (field, s) ∈ pandas.columns d -> pandas.isnull_all s = true ->
  app.update_graph df field σ = (Ok placeholder_figure, σ).
Proof.
  intros Hσ Hnd Hin Hnull. run_graph Hσ.
  rewrite contains_true by (by eapply column_name).
  rewrite Hσ. rewrite (getitem_unique d field s) by done. simpl.
  rewrite Hnull. reflexivity.
Qed.

Lemma update_graph_line σ d field s ts :
  σ !! df = Some d -> NoDup (pandas.names d) ->
  (field, s) ∈ pandas.columns d -> pandas.isnull_all s = false ->
  ("Fecha", pandas.Datetime64 ts) ∈ pandas.columns d ->
  app.update_graph df field σ = (Ok (line_figure (pandas.Datetime64 ts) s field), σ).
Proof.
  intros Hσ Hnd Hin Hnull Hfecha. run_graph Hσ.
  rewrite contains_true by (by eapply column_name).
  rewrite Hσ. rewrite (getitem_unique d field s) by done. simpl.
  rewrite Hnull. simpl. rewrite Hσ.
  rewrite (getitem_unique d "Fecha" (pandas.Datetime64 ts)) by done. simpl.
  rewrite Hσ. rewrite (getitem_unique d field s) by done. reflexivity.
Qed.

(** [update_graph] only reads: whatever it returns or raises, the store is
    as before. *)
Lemma update_graph_store σ field : (app.update_graph df field σ).2 = σ.
Proof.
  unfold app.update_graph, df_contains, df_getitem, liftR, load.
  unfold mbind, mret, M_bind, M_ret.
  destruct (σ !! df) as [d|] eqn:Hσ; simpl; [|done].
  destruct (pandas.contains d field); simpl; [|done].
  rewrite Hσ.
  destruct (pandas.getitem d field) as [sel|e] eqn:Hsel; simpl; [|done].
  destruct (pandas.not_isnull_all sel) as [[|]|e]; simpl; try done.
  rewrite Hσ.
  destruct (pandas.getitem d "Fecha") as [fecha|e]; simpl; [|done].
  destruct (pandas.to_datetime fecha) as [x|e]; simpl; [|done].
  rewrite Hσ. simpl. rewrite Hsel.
  destruct (plotly.scatter_y sel) as [y|e]; simpl; done.
Qed.

End UpdateGraph.

(** ** The store *)

Section StoreFacts.
Context {V : Type} `{Numerics V}.
Implicit Types (d : pandas.DataFrame V) (σ : store V) (l : loc).

Lemma bind_run {A B} (m : M V A) (f : A -> M V B) σ :
  (m ≫= f) σ = match m σ with
               | (Ok a, σ') => f a σ'
               | (Raise e, σ') => (Raise e, σ')
               end.
Proof. reflexivity. Qed.

Lemma bind_Ok {A B} (a : A) (f : A -> result B) : (Ok a ≫= f) = f a.
Proof. reflexivity. Qed.

Lemma fresh_ne σ l d : σ !! l = Some d -> fresh (dom σ) <> l.
Proof.
  intros Hl Heq. unfold store in *.
  assert (l ∈ dom σ) as Hin by (apply (elem_of_dom (D := gset loc)); eauto).
  rewrite <- Heq in Hin. exact (is_fresh (dom σ) Hin).
Qed.

(** Allocation leaves every frame that exists where it is. *)
Lemma lookup_alloc σ l d r : σ !! l = Some d -> <[fresh (dom σ) := r]> σ !! l = Some d.
Proof.
  intros Hl. unfold store in *. rewrite lookup_insert_ne; [done|]. by eapply fresh_ne.
Qed.

Lemma df_describe_run σ l d :
  σ !! l = Some d ->
  df_describe l σ = match pandas.describe d with
                    | Ok r => (Ok (fresh (dom σ)), <[fresh (dom σ) := r]> σ)
                    | Raise e => (Raise e, σ)
                    end.
Proof.
  intros Hl. unfold df_describe, load, liftR, alloc, mbind, M_bind. rewrite Hl.
  by destruct (pandas.describe d).
Qed.

Lemma df_reset_index_run σ l d :
  σ !! l = Some d ->
  df_reset_index l σ = match pandas.reset_index d with
                       | Ok r => (Ok (fresh (dom σ)), <[fresh (dom σ) := r]> σ)
                       | Raise e => (Raise e, σ)
                       end.
Proof.
  intros Hl. unfold df_reset_index, load, liftR, alloc, mbind, M_bind. rewrite Hl.
  by destruct (pandas.reset_index d).
Qed.

Lemma df_columns_run σ l d :
  σ !! l = Some d -> df_columns l σ = (Ok (pandas.names d), σ).
Proof.
  intros Hl. unfold df_columns, load, mbind, mret, M_bind, M_ret. by rewrite Hl.
Qed.

Lemma df_set_columns_run σ l d labels :
  σ !! l = Some d ->
  df_set_columns l labels σ = match pandas.set_columns d labels with
                              | Ok r => (Ok tt, <[l := r]> σ)
                              | Raise e => (Raise e, σ)
                              end.
Proof.
  intros Hl. unfold df_set_columns, load, liftR, assign, mbind, M_bind. rewrite Hl.
  by destruct (pandas.set_columns d labels).
Qed.

Lemma df_to_dict_records_run σ l d :
  σ !! l = Some d -> df_to_dict_records l σ = (Ok (pandas.to_dict_records d), σ).
Proof.
  intros Hl. unfold df_to_dict_records, load, mbind, mret, M_bind, M_ret. by rewrite Hl.
Qed.

End StoreFacts.

Section UpdateTable.
Context {V : Type} `{Numerics V}.
Variable df : loc.
Implicit Types (d : pandas.DataFrame V) (s : pandas.Series V) (σ : store V).

Lemma update_table_run σ d field :
  σ !! df = Some d ->
  exists σ', app.update_table df field σ = (summary_table d, σ') /\ σ' !! df = Some d.
Proof.
  intros Hσ. unfold app.update_table, summary_table.
  rewrite bind_run, (df_describe_run σ df d Hσ).
  destruct (pandas.describe d) as [r1|e]; [|exists σ; split; [reflexivity|done]].
  rewrite bind_Ok.
  set (l1 := fresh (dom σ)). set (σ1 := <[l1 := r1]> σ).
  assert (σ1 !! l1 = Some r1) as H1 by (unfold store in *; apply lookup_insert_eq).
  assert (σ1 !! df = Some d) as Hdf1 by (by apply lookup_alloc).
  rewrite bind_run, (df_reset_index_run σ1 l1 r1 H1).
  destruct (pandas.reset_index r1) as [r2|e]; [|exists σ1; split; [reflexivity|done]].
  rewrite bind_Ok.
  set (l2 := fresh (dom σ1)). set (σ2 := <[l2 := r2]> σ1).
  assert (σ2 !! l2 = Some r2) as H2 by (unfold store in *; apply lookup_insert_eq).
  assert (σ2 !! df = Some d) as Hdf2 by (by apply lookup_alloc).
  assert (l2 <> df) as Hne by (by eapply fresh_ne).
  rewrite bind_run, (df_columns_run σ2 l2 r2 H2).
  rewrite bind_run, (df_set_columns_run σ2 l2 r2 _ H2).
  destruct (pandas.set_columns r2 (map pandas.str (pandas.names r2))) as [r3|e];
    [|exists σ2; split; [reflexivity|done]].
  set (σ3 := <[l2 := r3]> σ2).
  assert (σ3 !! l2 = Some r3) as H3 by (unfold store in *; apply lookup_insert_eq).
  rewrite bind_run, (df_to_dict_records_run σ3 l2 r3 H3).
  rewrite bind_run, (df_columns_run σ3 l2 r3 H3).
  exists σ3. split; [reflexivity|].
  subst σ3. unfold store in *. by rewrite lookup_insert_ne.
Qed.

(** With [df] unbound the first statement raises and nothing is written. *)
Lemma update_table_unbound σ field :
  σ !! df = None -> app.update_table df field σ = (Raise NameError, σ).
Proof.
  intros Hσ. unfold app.update_table, df_describe, load. rewrite !bind_run.
  by rewrite Hσ.
Qed.

End UpdateTable.

(** ** The summary statistics *)

Section DescribeFacts.
Context {V : Type} `{Numerics V}.
Implicit Types (d : pandas.DataFrame V) (s : pandas.Series V).
Implicit Types (cols : list (string * pandas.Series V)).

Lemma describe_1d_index c :
  pandas.is_number_or_datetime c.2 = true ->
  map fst (pandas.describe_1d c.2) = stat_index c.
Proof. destruct c as [k [xs|xs|xs|xs]]; simpl; intros Hc; done. Qed.

Lemma insert_timestamp_index (l : list (list string)) :
  Forall (fun i => 7 <= length i) l ->
  pandas.insert_by_len pandas.timestamp_index l = pandas.timestamp_index :: l.
Proof.
  destruct l as [|y l]; [done|]. intros Hl. apply list.Forall_cons in Hl as [Hy _].
  simpl. destruct (length y) as [|[|[|[|[|[|[|n]]]]]]] eqn:E; simpl; lia || done.
Qed.

Lemma insert_numeric_index a b :
  pandas.insert_by_len pandas.numeric_index
    (replicate a pandas.timestamp_index ++ replicate b pandas.numeric_index)%list
  = (replicate a pandas.timestamp_index ++ replicate (S b) pandas.numeric_index)%list.
Proof.
  induction a as [|a IH]; simpl.
  - by destruct b.
  - by rewrite IH.
Qed.

Lemma sorted_stat_index cols :
  pandas.sorted_by_len (map stat_index cols) =
  (replicate (length (filter (fun c => is_datetime c.2 = true) cols)) pandas.timestamp_index
   ++ replicate (length (filter (fun c => is_datetime c.2 = false) cols)) pandas.numeric_index)%list.
Proof.
  induction cols as [|c cols IH]; [done|].
  simpl. rewrite IH. rewrite !filter_cons. unfold stat_index at 1.
  destruct (is_datetime c.2) eqn:E; simpl.
  - rewrite insert_timestamp_index; [done|].
    apply Forall_app; split; apply Forall_replicate; simpl; lia.
  - apply insert_numeric_index.
Qed.

Lemma add_seen (acc idx : list string) :
  idx ⊆ acc -> foldl pandas.add_unseen acc idx = acc.
Proof.
  induction idx as [|i idx IH]; intros Hsub; [done|]. simpl.
  unfold pandas.add_unseen at 2.
  rewrite bool_decide_eq_true_2 by (apply Hsub; left).
  apply IH. intros x Hx. apply Hsub. by right.
Qed.

Lemma add_seen_replicate n (acc idx : list string) :
  idx ⊆ acc ->
  foldl (fun acc idx => foldl pandas.add_unseen acc idx) acc (replicate n idx) = acc.
Proof.
  intros Hsub. induction n as [|n IH]; [done|]. simpl. by rewrite add_seen.
Qed.

(** With a column of dates and a column of numbers, the rows come in the
    order of the shorter index, and [std] is appended. *)
Lemma reorder_stat_index (ldesc : list (list (string * Cell V))) cols c1 c2 :
  map (map fst) ldesc = map stat_index cols ->
  c1 ∈ cols -> is_datetime c1.2 = true ->
  c2 ∈ cols -> is_datetime c2.2 = false ->
  pandas.reorder_columns ldesc = described_index.
Proof.
  intros Hidx Hc1 Hd1 Hc2 Hd2. unfold pandas.reorder_columns.
  rewrite Hidx, sorted_stat_index.
  assert (c1 ∈ filter (fun c => is_datetime c.2 = true) cols) as Hf1
    by (by apply list_elem_of_filter).
  assert (c2 ∈ filter (fun c => is_datetime c.2 = false) cols) as Hf2
    by (by apply list_elem_of_filter).
  destruct (filter (fun c => is_datetime c.2 = true) cols) as [|x xs]; [inversion Hf1|].
  destruct (filter (fun c => is_datetime c.2 = false) cols) as [|y ys]; [inversion Hf2|].
  rewrite foldl_app. simpl length. simpl replicate.
  cbn [foldl]. change (foldl pandas.add_unseen [] pandas.timestamp_index)
    with pandas.timestamp_index.
  rewrite (add_seen_replicate (length xs) pandas.timestamp_index pandas.timestamp_index)
    by (by intros ? ?).
  change (foldl pandas.add_unseen pandas.timestamp_index pandas.numeric_index)
    with described_index.
  apply add_seen_replicate. intros l Hx. unfold pandas.numeric_index in Hx.
  repeat (apply elem_of_cons in Hx as [->|Hx]; [by_evaluation|]). inversion Hx.
Qed.

Lemma PriceSeries_select_data d :
  PriceSeries d -> pandas.select_data d = pandas.columns d.
Proof.
  intros Hps. unfold pandas.select_data.
  assert (filter (fun c => pandas.is_number_or_datetime c.2 = true) (pandas.columns d)
          = pandas.columns d) as ->.
  { pose proof (ps_dtypes _ Hps) as Hdt. induction Hdt as [|c cols Hc _ IH]; [done|].
    rewrite filter_cons, IH. rewrite decide_True; [done|].
    unfold dtype_ok in Hc. destruct c as [k s]. simpl in *.
    destruct (bool_decide (k = "Fecha")), s; done. }
  by destruct (pandas.columns d).
Qed.

Lemma PriceSeries_describe d :
  PriceSeries d ->
  exists cs, pandas.describe d =
             Ok {| pandas.index := pandas.Labels described_index;
                   pandas.columns := zip (pandas.names d) cs |}
             /\ length cs = length (pandas.names d).
Proof.
  intros Hps. unfold pandas.describe.
  destruct (PriceSeries_Fecha d Hps) as [ts Hfecha].
  destruct (name_column d "Cierre") as [s Hcierre].
  { rewrite (ps_fields _ Hps). by_evaluation. }
  rewrite PriceSeries_select_data by done.
  destruct (pandas.columns d) as [|c0 cols0] eqn:Hcols; [inversion Hfecha|].
  rewrite <- Hcols in *.
  eexists. split.
  - do 3 f_equal.
    eapply (reorder_stat_index _ (pandas.columns d)
              ("Fecha", pandas.Datetime64 ts) ("Cierre", s)); try done.
    + rewrite map_map. apply map_ext_in. intros c Hc. apply describe_1d_index.
      pose proof (ps_dtypes _ Hps) as Hdt. rewrite list.Forall_forall in Hdt.
      apply list_elem_of_In in Hc. specialize (Hdt _ Hc). unfold dtype_ok in Hdt.
      destruct c as [k s']. simpl in *.
      destruct (bool_decide (k = "Fecha")), s'; done.
    + pose proof (ps_dtypes _ Hps) as Hdt. rewrite list.Forall_forall in Hdt.
      specialize (Hdt _ Hcierre). unfold dtype_ok in Hdt. simpl in Hdt.
      by destruct s.
  - unfold pandas.names. by rewrite !length_map.
Qed.

Lemma foldl_insert_other (cols : list (string * pandas.Series V)) i k
    (m : gmap string (Cell V)) :
  k ∉ map fst cols ->
  foldl (fun m c => <[c.1 := nth i (pandas.cells c.2) CNone]> m) m cols !! k = m !! k.
Proof.
  revert m. induction cols as [|[k' s'] cols IH]; intros m Hno; [done|].
  simpl in *. apply not_elem_of_cons in Hno as [Hne Hno].
  rewrite IH by done. by rewrite lookup_insert_ne.
Qed.

(** The first column of a frame is read back from each record when no other
    column bears its label. *)
Lemma record_at_first idx k s (cols : list (string * pandas.Series V)) i :
  k ∉ map fst cols ->
  pandas.record_at {| pandas.index := idx; pandas.columns := (k, s) :: cols |} i !! k
  = Some (nth i (pandas.cells s) CNone).
Proof.
  intros Hno. unfold pandas.record_at. simpl.
  rewrite foldl_insert_other by done. apply lookup_insert_eq.
Qed.

Lemma set_columns_same (r : pandas.DataFrame V) :
  pandas.set_columns r (map pandas.str (pandas.names r)) = Ok r.
Proof.
  unfold pandas.set_columns, pandas.names.
  rewrite !length_map, Nat.eqb_refl. f_equal. destruct r as [idx cols]. simpl. f_equal.
  replace (map pandas.str (map fst cols)) with (cols.*1).
  - apply zip_fst_snd.
  - unfold pandas.str. by rewrite map_id.
Qed.

Lemma reset_index_fresh (r : pandas.DataFrame V) :
  "index" ∉ pandas.names r ->
  pandas.reset_index r =
  Ok {| pandas.index := pandas.RangeIndex (pandas.nrows r);
        pandas.columns := ("index", pandas.index_values (pandas.index r)) :: pandas.columns r |}.
Proof.
  intros Hno. unfold pandas.reset_index, pandas.contains.
  by rewrite !(bool_decide_eq_false_2 _ Hno).
Qed.

Lemma PriceSeries_summary_table d :
  PriceSeries d ->
  exists t, summary_table d = Ok t
            /\ row_labels t = map (fun l => Some (CStr l)) described_index.
Proof.
  intros Hps. destruct (PriceSeries_describe d Hps) as (cs & Hd & Hlen).
  unfold summary_table. rewrite Hd, bind_Ok.
  assert ("index" ∉ pandas.names d) as Hindex.
  { rewrite (ps_fields _ Hps). by_evaluation. }
  assert (map fst (zip (pandas.names d) cs) = pandas.names d) as Hnames
    by (apply (fst_zip (pandas.names d) cs); lia).
  rewrite reset_index_fresh
    by (by unfold pandas.names at 1; cbn [pandas.columns]; rewrite Hnames).
  rewrite bind_Ok, set_columns_same, bind_Ok.
  eexists. split; [reflexivity|].
  unfold row_labels, pandas.to_dict_records. simpl.
  rewrite !record_at_first by (by rewrite Hnames). reflexivity.
Qed.

End DescribeFacts.

(** ** Autocorrelations *)

Section AcfFacts.
Context {V : Type} `{Numerics V}.
Implicit Types (x : list V) (σ : store V).

Lemma acovf_length x : length (statsmodels.acovf x) = length x.
Proof. unfold statsmodels.acovf. by rewrite length_map, length_seq. Qed.

Lemma acf_length x nlags :
  0 < length x ->
  exists vals, statsmodels.acf x nlags = Ok vals
               /\ length vals = Nat.min (nlags + 1) (length x).
Proof.
  intros Hx. unfold statsmodels.acf. pose proof (acovf_length x) as Hlen.
  destruct (statsmodels.acovf x) as [|avf0 rest] eqn:E; [simpl in Hlen; lia|].
  eexists. split; [reflexivity|]. by rewrite length_map, length_take, Hlen.
Qed.


Lemma pacf_yw_length x nlags : length (statsmodels.pacf_yw x nlags) = nlags + 1.
Proof. unfold statsmodels.pacf_yw. simpl. rewrite length_map, length_seq. lia. Qed.

Lemma pacf_accepts x nlags :
  Nat.max nlags 1 <= length x / 2 ->
  statsmodels.pacf x nlags = Ok (statsmodels.pacf_yw x (Nat.max nlags 1)).
Proof.
  intros Hn. unfold statsmodels.pacf.
  by destruct (Nat.ltb_spec (length x / 2) (Nat.max nlags 1)); [lia|].
Qed.

Lemma pacf_refuses x nlags :
  length x / 2 < Nat.max nlags 1 ->
  exists msg, statsmodels.pacf x nlags = Raise (ValueError msg).
Proof.
  intros Hn. unfold statsmodels.pacf.
  destruct (Nat.ltb_spec (length x / 2) (Nat.max nlags 1)); [by eexists|lia].
Qed.

Lemma generar_acf_pacf_run series x nlags σ :
  statsmodels.array_like series = Ok x ->
  app.generar_acf_pacf series nlags σ =
  (acf_vals ← statsmodels.acf x nlags;
   pacf_vals ← statsmodels.pacf x nlags;
   Ok (bar_figure (np.arange (length acf_vals)) acf_vals app.colors_accent "ACF del Precio",
       bar_figure (np.arange (length acf_vals)) pacf_vals app.colors_secondary
         "PACF del Precio"),
   σ).
Proof.
  intros Hx. unfold app.generar_acf_pacf, liftR. rewrite Hx, !bind_Ok, bind_run.
  destruct (statsmodels.acf x nlags) as [a|e]; [|done].
  rewrite bind_Ok, bind_run.
  destruct (statsmodels.pacf x nlags) as [p|e]; done.
Qed.

(** The charts are computed from the series alone: the store is as before. *)
Lemma generar_acf_pacf_store series nlags σ :
  (app.generar_acf_pacf series nlags σ).2 = σ.
Proof.
  unfold app.generar_acf_pacf, liftR. rewrite bind_run.
  destruct (x ← statsmodels.array_like series; statsmodels.acf x nlags) as [a|e]; [|done].
  rewrite bind_run.
  destruct (x ← statsmodels.array_like series; statsmodels.pacf x nlags) as [p|e]; done.
Qed.

Lemma startup_acf_pacf_store df σ : (app.startup_acf_pacf df σ).2 = σ.
Proof.
  unfold app.startup_acf_pacf. rewrite bind_run.
  unfold df_getitem, load, liftR. rewrite bind_run.
  destruct (σ !! df) as [d|]; [|done].
  destruct (pandas.getitem d "Cierre") as [[s|cs]|e]; try done.
  apply generar_acf_pacf_store.
Qed.

End AcfFacts.

(** * The claims of the specification *)

Section Claims.
Context {V : Type} `{Numerics V}.
Variable df : loc.
Implicit Types (d : pandas.DataFrame V) (s : pandas.Series V) (σ : store V).

Lemma column_unique d name s s' :
  NoDup (pandas.names d) ->
  (name, s) ∈ pandas.columns d -> (name, s') ∈ pandas.columns d -> s = s'.
Proof.
  intros Hnd Hs Hs'. pose proof (getitem_unique d name s Hnd Hs) as E.
  rewrite (getitem_unique d name s' Hnd Hs') in E. congruence.
Qed.

(** The two ways [update_graph] ends on a PriceSeries. *)
Lemma update_graph_cases σ d field :
  σ !! df = Some d -> PriceSeries d ->
  (app.update_graph df field σ = (Ok placeholder_figure, σ)
   /\ (field ∉ pandas.names d
       \/ exists s, (field, s) ∈ pandas.columns d /\ pandas.isnull_all s = true))
  \/ (exists ts s, ("Fecha", pandas.Datetime64 ts) ∈ pandas.columns d
                   /\ (field, s) ∈ pandas.columns d /\ pandas.isnull_all s = false
                   /\ app.update_graph df field σ
                      = (Ok (line_figure (pandas.Datetime64 ts) s field), σ)).
Proof.
  intros Hσ Hps. pose proof (PriceSeries_NoDup d Hps) as Hnd.
  destruct (decide (field ∈ pandas.names d)) as [Hin|Hno].
  - destruct (name_column d field Hin) as [s Hs].
    destruct (pandas.isnull_all s) eqn:Hnull.
    + left. split; [by apply (update_graph_all_null df σ d field s)|]. right. by exists s.
    + right. destruct (PriceSeries_Fecha d Hps) as [ts Hts]. exists ts, s.
      repeat split; try done. by apply (update_graph_line df σ d).
  - left. split; [by apply (update_graph_absent df σ d)|]. by left.
Qed.

(** Every entry counts exactly when none is null. *)
Lemma count_all s :
  pandas.count s = pandas.series_len s
  <-> Forall (fun c => pandas.cell_isnull c = false) (pandas.cells s).
Proof.
  unfold pandas.count, pandas.series_len.
  induction (pandas.cells s) as [|c cs IH]; [by split|].
  rewrite filter_cons, list.Forall_cons.
  pose proof (length_filter (fun c => pandas.cell_isnull c = false) cs) as Hle.
  destruct (decide (pandas.cell_isnull c = false)) as [Hc|Hc]; simpl.
  - rewrite <- IH. split; [intros E; split; [done|lia]|intros [_ E]; lia].
  - split; [lia|intros [? _]; done].
Qed.

(** C1, as amended.  For each selectable field (and any other column) that
    has at least one non-null value, the line [update_graph] draws has one
    point for every row of PriceSeries: the whole column is plotted, the
    null entries included, against the whole [Fecha] column.  Its length is
    the number of rows; the non-null entries are a part of them, and all of
    them exactly when the field has no null. *)
Theorem update_graph_line_has_every_row σ d field s :
  σ !! df = Some d -> PriceSeries d ->
  (field, s) ∈ pandas.columns d -> 0 < pandas.count s ->
  exists ts,
    ("Fecha", pandas.Datetime64 ts) ∈ pandas.columns d
    /\ app.update_graph df field σ
       = (Ok (line_figure (pandas.Datetime64 ts) s field), σ)
    /\ pandas.series_len s = pandas.nrows d
    /\ pandas.series_len (pandas.Datetime64 ts : pandas.Series V) = pandas.nrows d
    /\ pandas.count s <= pandas.nrows d
    /\ (pandas.count s = pandas.nrows d
        <-> Forall (fun c => pandas.cell_isnull c = false) (pandas.cells s)).
Proof.
  intros Hσ Hps Hs Hcount. pose proof (PriceSeries_NoDup d Hps) as Hnd.
  destruct (PriceSeries_Fecha d Hps) as [ts Hts].
  assert (pandas.isnull_all s = false) as Hnull.
  { destruct (pandas.isnull_all s) eqn:E; [|done]. apply isnull_all_count in E. lia. }
  exists ts. split; [done|]. split; [by apply (update_graph_line df σ d)|].
  pose proof (PriceSeries_rows d _ _ Hps Hs) as Hlen.
  pose proof (PriceSeries_rows d _ _ Hps Hts) as Hlenx.
  pose proof (count_le_len s).
  split; [done|]. split; [done|]. split; [lia|].
  rewrite <- Hlen. apply count_all.
Qed.

(** C2.  On a PriceSeries [update_graph] always returns a figure.  It is the
    "Datos no disponibles" placeholder exactly when the requested field is
    not a column or all its values are null; in every other case it is the
    line chart of that column. *)
Theorem update_graph_placeholder_iff σ d field :
  σ !! df = Some d -> PriceSeries d ->
  exists fig, app.update_graph df field σ = (Ok fig, σ)
    /\ (fig = placeholder_figure <->
        (field ∉ pandas.names d
         \/ exists s, (field, s) ∈ pandas.columns d /\ pandas.isnull_all s = true))
    /\ (fig <> placeholder_figure ->
        exists x y, (field, y) ∈ pandas.columns d /\ fig = line_figure x y field).
Proof.
  intros Hσ Hps. pose proof (PriceSeries_NoDup d Hps) as Hnd.
  destruct (update_graph_cases σ d field Hσ Hps)
    as [[Hrun Hcond]|(ts & s & Hts & Hs & Hnull & Hrun)].
  - exists placeholder_figure. repeat split; done.
  - exists (line_figure (pandas.Datetime64 ts) s field). split; [done|]. split.
    + split; [discriminate|]. intros [Hno|(s' & Hs' & Hnull')].
      * exfalso. apply Hno. by eapply column_name.
      * rewrite (column_unique d field s s' Hnd Hs Hs') in Hnull. congruence.
    + intros _. by exists (pandas.Datetime64 ts), s.
Qed.

(** C9.  On a PriceSeries [update_graph] returns a figure for every string,
    whether or not it names a column, and whether or not it is one of the
    dropdown options. *)
Theorem update_graph_total σ d field :
  σ !! df = Some d -> PriceSeries d ->
  exists fig, app.update_graph df field σ = (Ok fig, σ).
Proof.
  intros Hσ Hps.
  destruct (update_graph_cases σ d field Hσ Hps)
    as [[Hrun _]|(ts & s & _ & _ & _ & Hrun)]; eauto.
Qed.

(** C3.  [update_table] does not look at its argument: two calls in the
    same store with any two selected fields give the same table (or raise
    the same exception) and leave the same store. *)
Theorem update_table_ignores_input (a b : string) σ :
  app.update_table df a σ = app.update_table df b σ.
Proof. reflexivity. Qed.

(** C6.  For a PriceSeries the table of [update_table] has eight rows, one
    for each of count, mean, std, min, 25%, 50%, 75% and max. *)
Theorem update_table_eight_rows σ d field :
  σ !! df = Some d -> PriceSeries d ->
  exists t σ', app.update_table df field σ = (Ok t, σ')
    /\ length (dash.data t) = 8
    /\ row_labels t ≡ₚ map (fun l => Some (CStr l)) pandas.numeric_index.
Proof.
  intros Hσ Hps. destruct (update_table_run df σ d field Hσ) as (σ' & Hrun & _).
  destruct (PriceSeries_summary_table d Hps) as (t & Ht & Hlabels).
  exists t, σ'. rewrite Hrun, Ht. split; [done|].
  assert (length (row_labels t) = 8) as Hlen by (by rewrite Hlabels).
  unfold row_labels in Hlen. rewrite length_map in Hlen. split; [done|].
  rewrite Hlabels. unfold described_index, pandas.numeric_index. simpl.
  do 2 apply perm_skip. symmetry.
  apply (Permutation_cons_append
           [Some (CStr "min"); Some (CStr "25%"); Some (CStr "50%");
            Some (CStr "75%"); Some (CStr "max")] (Some (CStr "std"))).
Qed.

(** C7.  A second call of [update_table], made in the store the first call
    left, gives what the first call gave. *)
Theorem update_table_idempotent (a b : string) σ :
  (app.update_table df b (app.update_table df a σ).2).1 = (app.update_table df a σ).1.
Proof.
  destruct (σ !! df) as [d|] eqn:Hσ.
  - destruct (update_table_run df σ d a Hσ) as (σ1 & Hrun1 & Hdf1).
    rewrite Hrun1. simpl.
    destruct (update_table_run df σ1 d b Hdf1) as (σ2 & Hrun2 & _).
    by rewrite Hrun2.
  - rewrite (update_table_unbound df σ a Hσ). simpl.
    by rewrite (update_table_unbound df σ b Hσ).
Qed.

(** C8.  No view changes the frame bound to [df]: after [update_graph],
    [update_table], [generar_acf_pacf] or the start-up call of the latter,
    whether they return or raise, [df] holds what it held. *)
Theorem views_leave_df_unchanged σ :
  (forall field, (app.update_graph df field σ).2 !! df = σ !! df)
  /\ (forall field, (app.update_table df field σ).2 !! df = σ !! df)
  /\ (forall series nlags, (app.generar_acf_pacf series nlags σ).2 !! df = σ !! df)
  /\ (app.startup_acf_pacf df σ).2 !! df = σ !! df.
Proof.
  repeat split.
  - intros field. by rewrite update_graph_store.
  - intros field. destruct (σ !! df) as [d|] eqn:Hσ.
    + destruct (update_table_run df σ d field Hσ) as (σ' & Hrun & Hdf). by rewrite Hrun.
    + by rewrite (update_table_unbound df σ field Hσ).
  - intros series nlags. by rewrite generar_acf_pacf_store.
  - by rewrite startup_acf_pacf_store.
Qed.

(** C10, as amended.  For any lag count [n] of at least 1 and any series
    that is admissible for it, the autocorrelations and the partial
    autocorrelations each have [n + 1] values, and both bar charts are drawn
    over the one lag axis [0, 1, ..., n]. *)
Theorem generar_acf_pacf_shared_lags σ series x n :
  statsmodels.array_like series = Ok x -> 1 <= n -> admissible x n = true ->
  exists acf_vals pacf_vals,
    app.generar_acf_pacf series n σ
    = (Ok (bar_figure (seq 0 (n + 1)) acf_vals app.colors_accent "ACF del Precio",
           bar_figure (seq 0 (n + 1)) pacf_vals app.colors_secondary "PACF del Precio"),
       σ)
    /\ length acf_vals = n + 1 /\ length pacf_vals = n + 1.
Proof.
  intros Hx Hn1 Hadm. unfold admissible in Hadm.
  apply andb_true_iff in Hadm as [Hpos Hn].
  apply Nat.ltb_lt in Hpos. apply Nat.leb_le in Hn.
  destruct (acf_length x n Hpos) as (a & Ha & Hla).
  assert (n + 1 <= length x) as Hle.
  { pose proof (Nat.Div0.mul_div_le (length x) 2). lia. }
  rewrite Nat.min_l in Hla by done.
  exists a, (statsmodels.pacf_yw x n).
  rewrite (generar_acf_pacf_run series x n σ Hx), Ha, (pacf_accepts x n Hn), !bind_Ok.
  rewrite (Nat.max_l n 1) by done.
  unfold np.arange. rewrite Hla. split; [reflexivity|]. split; [done|].
  apply pacf_yw_length.
Qed.

(** C4, as amended.  For any input series of at least 80 values (statsmodels
    computes partial autocorrelations only up to half of the sample) the
    two sequences of [generar_acf_pacf] have 41 entries each, one per lag
    0 to 40. *)
Theorem generar_acf_pacf_41_entries σ x :
  80 <= length x ->
  exists acf_vals pacf_vals,
    app.generar_acf_pacf (pandas.Float64 x) app.default_nlags σ
    = (Ok (bar_figure (seq 0 41) acf_vals app.colors_accent "ACF del Precio",
           bar_figure (seq 0 41) pacf_vals app.colors_secondary "PACF del Precio"),
       σ)
    /\ length acf_vals = 41 /\ length pacf_vals = 41.
Proof.
  intros Hlen. assert (0 < length x) as Hpos by lia.
  destruct (acf_length x app.default_nlags Hpos) as (a & Ha & Hla).
  unfold app.default_nlags in *. rewrite Nat.min_l in Hla by lia.
  assert (40 <= length x / 2) as Hn by (apply (Nat.Div0.div_le_mono 80 _ 2); lia).
  exists a, (statsmodels.pacf_yw x 40).
  rewrite (generar_acf_pacf_run (pandas.Float64 x) x 40 σ eq_refl), Ha,
    (pacf_accepts x 40 Hn), !bind_Ok.
  unfold np.arange. rewrite Hla. split; [reflexivity|]. split; [done|].
  apply pacf_yw_length.
Qed.


End Claims.

(** * The claims on sample data *)

Ltac sample_is_price_series :=
  split; [reflexivity | repeat constructor | repeat constructor].

Lemma update_graph_line_has_every_row_witness :
  Sample.store0 !! Sample.df = Some Sample.prices
  /\ PriceSeries Sample.prices
  /\ exists ts,
       ("Fecha", pandas.Datetime64 ts) ∈ pandas.columns Sample.prices
       /\ app.update_graph Sample.df "Cierre" Sample.store0
          = (Ok (line_figure (pandas.Datetime64 ts)
                   (pandas.Float64 [Sample.q 10; None; Sample.q 12]) "Cierre"),
             Sample.store0)
       /\ pandas.series_len (pandas.Float64 [Sample.q 10; None; Sample.q 12])
          = pandas.nrows Sample.prices
       /\ pandas.series_len (pandas.Datetime64 ts : pandas.Series Exact.num)
          = pandas.nrows Sample.prices
       /\ pandas.count (pandas.Float64 [Sample.q 10; None; Sample.q 12])
          <= pandas.nrows Sample.prices
       /\ (pandas.count (pandas.Float64 [Sample.q 10; None; Sample.q 12])
           = pandas.nrows Sample.prices
           <-> Forall (fun c => pandas.cell_isnull c = false)
                      (pandas.cells (pandas.Float64 [Sample.q 10; None; Sample.q 12]))).
Proof.
  split; [reflexivity|]. split; [sample_is_price_series|].
  apply (update_graph_line_has_every_row Sample.df Sample.store0 Sample.prices).
  - reflexivity.
  - sample_is_price_series.
  - repeat constructor.
  - vm_compute. lia.
Defined.

(** C1 as stated fails: the closing prices 10, NaN, 12 have two non-null
    rows, and the line drawn for them has three points. *)
Lemma update_graph_nonnull_rows_counterexample :
  PriceSeries Sample.prices
  /\ exists fig y,
       app.update_graph Sample.df "Cierre" Sample.store0 = (Ok fig, Sample.store0)
       /\ line_series fig = Some y
       /\ 0 < pandas.count y
       /\ pandas.series_len y = 3
       /\ pandas.count y = 2.
Proof.
  split; [sample_is_price_series|].
  eexists. eexists. split; [vm_compute; reflexivity|].
  split; [reflexivity|]. split; [vm_compute; lia|]. split; reflexivity.
Qed.

Lemma update_graph_placeholder_iff_witness :
  Sample.store0 !! Sample.df = Some Sample.prices
  /\ PriceSeries Sample.prices
  /\ exists fig,
       app.update_graph Sample.df "Minimo" Sample.store0 = (Ok fig, Sample.store0)
       /\ (fig = placeholder_figure <->
           ("Minimo" ∉ pandas.names Sample.prices
            \/ exists s, ("Minimo", s) ∈ pandas.columns Sample.prices
                         /\ pandas.isnull_all s = true))
       /\ (fig <> placeholder_figure ->
           exists x y, ("Minimo", y) ∈ pandas.columns Sample.prices
                       /\ fig = line_figure x y "Minimo").
Proof.
  split; [reflexivity|]. split; [sample_is_price_series|].
  apply (update_graph_placeholder_iff Sample.df Sample.store0 Sample.prices).
  - reflexivity.
  - sample_is_price_series.
Defined.

Lemma update_graph_total_witness :
  Sample.store0 !! Sample.df = Some Sample.prices
  /\ PriceSeries Sample.prices
  /\ exists fig,
       app.update_graph Sample.df "Volumen" Sample.store0 = (Ok fig, Sample.store0).
Proof.
  split; [reflexivity|]. split; [sample_is_price_series|].
  apply (update_graph_total Sample.df Sample.store0 Sample.prices).
  - reflexivity.
  - sample_is_price_series.
Defined.

Lemma update_table_eight_rows_witness :
  Sample.store0 !! Sample.df = Some Sample.prices
  /\ PriceSeries Sample.prices
  /\ exists t σ',
       app.update_table Sample.df "Cierre" Sample.store0 = (Ok t, σ')
       /\ length (dash.data t) = 8
       /\ row_labels t ≡ₚ map (fun l => Some (CStr l)) pandas.numeric_index.
Proof.
  split; [reflexivity|]. split; [sample_is_price_series|].
  apply (update_table_eight_rows Sample.df Sample.store0 Sample.prices).
  - reflexivity.
  - sample_is_price_series.
Defined.

(** C10 as stated fails at [n = 0]: on the series 1, ..., 8, which [acf]
    and [pacf] both accept, there is one autocorrelation and there are two
    partial autocorrelations, over a lag axis of one point. *)
Lemma generar_acf_pacf_zero_lags_counterexample :
  statsmodels.array_like (pandas.Float64 (Sample.ramp 8)) = Ok (Sample.ramp 8)
  /\ admissible (Sample.ramp 8) 0 = true
  /\ exists acf_vals pacf_vals,
       app.generar_acf_pacf (pandas.Float64 (Sample.ramp 8)) 0 Sample.store0
       = (Ok (bar_figure [0] acf_vals app.colors_accent "ACF del Precio",
              bar_figure [0] pacf_vals app.colors_secondary "PACF del Precio"),
          Sample.store0)
       /\ length acf_vals = 1 /\ length pacf_vals = 2.
Proof.
  split; [reflexivity|]. split; [reflexivity|].
  eexists. eexists. split; [vm_compute; reflexivity|]. split; reflexivity.
Qed.

Lemma generar_acf_pacf_shared_lags_witness :
  statsmodels.array_like (pandas.Float64 (Sample.ramp 8)) = Ok (Sample.ramp 8)
  /\ 1 <= 3
  /\ admissible (Sample.ramp 8) 3 = true
  /\ exists acf_vals pacf_vals,
       app.generar_acf_pacf (pandas.Float64 (Sample.ramp 8)) 3 Sample.store0
       = (Ok (bar_figure (seq 0 (3 + 1)) acf_vals app.colors_accent "ACF del Precio",
              bar_figure (seq 0 (3 + 1)) pacf_vals app.colors_secondary "PACF del Precio"),
          Sample.store0)
       /\ length acf_vals = 3 + 1 /\ length pacf_vals = 3 + 1.
Proof.
  split; [reflexivity|]. split; [lia|]. split; [reflexivity|].
  apply (generar_acf_pacf_shared_lags Sample.store0 (pandas.Float64 (Sample.ramp 8))
           (Sample.ramp 8) 3).
  - reflexivity.
  - lia.
  - reflexivity.
Defined.

Lemma generar_acf_pacf_41_entries_witness :
  80 <= length (Sample.ramp 80)
  /\ exists acf_vals pacf_vals,
       app.generar_acf_pacf (pandas.Float64 (Sample.ramp 80)) app.default_nlags
         Sample.store0
       = (Ok (bar_figure (seq 0 41) acf_vals app.colors_accent "ACF del Precio",
              bar_figure (seq 0 41) pacf_vals app.colors_secondary "PACF del Precio"),
          Sample.store0)
       /\ length acf_vals = 41 /\ length pacf_vals = 41.
Proof.
  split; [vm_compute; lia|].
  apply (generar_acf_pacf_41_entries Sample.store0 (Sample.ramp 80)).
  vm_compute. lia.
Defined.

(** C4 as stated fails: a series of 41 values is longer than 40, and
    [generar_acf_pacf] raises on it, because [pacf] refuses 40 lags on a
    sample of 41. *)
Lemma generar_acf_pacf_short_counterexample :
  40 < length (Sample.ramp 41)
  /\ (app.generar_acf_pacf (pandas.Float64 (Sample.ramp 41)) app.default_nlags
        Sample.store0).1
     = Raise (ValueError
                "Can only compute partial correlations for lags up to 50% of the sample size.").
Proof.
  split; [vm_compute; lia|]. vm_compute. reflexivity.
Qed.


(** * Further properties of the code *)

(** ** Preparation of [df] *)

Section PrepareFacts.
Context {V : Type} `{Numerics V}.
Implicit Types (d : pandas.DataFrame V) (σ : store V) (raw : startup.RawFrame V).

Lemma mapR_length {A B} (f : A -> result B) (l : list A) (l' : list B) :
  mapR f l = Ok l' -> length l' = length l.
Proof.
  revert l'. induction l as [|a l IH]; intros l' E; simpl in E.
  - by injection E as <-.
  - destruct (f a) as [b|e]; [|discriminate]. rewrite bind_Ok in E.
    destruct (mapR f l) as [bs|e]; [|discriminate]. rewrite bind_Ok in E.
    injection E as <-. simpl. f_equal. by apply IH.
Qed.

Lemma mapR_Forall {A B} (f : A -> result B) (l : list A) :
  Forall (fun a => exists b, f a = Ok b) l -> exists l', mapR f l = Ok l'.
Proof.
  induction 1 as [|a l [b Hb] _ [bs Hbs]]; [by exists []|].
  exists (b :: bs). simpl. by rewrite Hb, bind_Ok, Hbs, bind_Ok.
Qed.

Lemma rename_label_other label :
  label ∉ ohlcv -> startup.rename_label startup.rename_map label = label.
Proof.
  intros Hno. unfold startup.rename_label, startup.rename_map. simpl.
  repeat (case_bool_decide; [subst; exfalso; apply Hno; by_evaluation|]).
  reflexivity.
Qed.

Lemma rename_label_ohlcv label :
  label ∈ ohlcv ->
  startup.rename_label startup.rename_map label ∈ fields
  /\ (startup.rename_label startup.rename_map label = "Fecha" <-> label = "Date").
Proof.
  intros Hin. unfold ohlcv in Hin.
  repeat (apply elem_of_cons in Hin as [->|Hin];
          [split; [by_evaluation|split; intros E; by vm_compute in E]|]).
  inversion Hin.
Qed.

Lemma rename_names d m :
  pandas.names (startup.rename d m) = map (startup.rename_label m) (pandas.names d).
Proof. unfold pandas.names, startup.rename. simpl. by rewrite !map_map. Qed.

Lemma rename_values d m :
  map snd (pandas.columns (startup.rename d m)) = map snd (pandas.columns d).
Proof. unfold startup.rename. simpl. by rewrite map_map. Qed.

Lemma prepare_run raw σ d :
  startup.flattened raw = Ok d ->
  startup.prepare raw σ
  = (Ok (fresh (dom σ)), <[fresh (dom σ) := startup.rename d startup.rename_map]> σ).
Proof.
  intros Hd. unfold startup.prepare, startup.df_rename_inplace, liftR, alloc, load, assign.
  rewrite bind_run, Hd, bind_run, bind_run, bind_run.
  unfold store in *. rewrite lookup_insert_eq. by rewrite insert_insert_eq.
Qed.

Lemma Download_PriceSeries d :
  Download d -> PriceSeries (startup.rename d startup.rename_map).
Proof.
  intros [Hf Hd Hr]. split.
  - rewrite rename_names, Hf. reflexivity.
  - unfold startup.rename. simpl. apply Forall_map. 
    rewrite list.Forall_forall in Hd |- *. intros [k s] Hin. specialize (Hd _ Hin).
    assert (k ∈ ohlcv) as Hk.
    { rewrite <- Hf. apply list_elem_of_fmap. by exists (k, s). }
    destruct (rename_label_ohlcv k Hk) as [_ Hfecha].
    unfold dtype_ok, raw_dtype_ok in *. simpl in *.
    case_bool_decide as E1; case_bool_decide as E2; try done.
    + by apply Hfecha in E1.
    + by apply Hfecha in E2.
  - unfold startup.rename. simpl. apply Forall_map.
    rewrite list.Forall_forall in Hr |- *. intros [k s] Hin. exact (Hr _ Hin).
Qed.

(** X1.  Renaming is idempotent: the Spanish names are not keys of the
    dict, so a second [rename] with the same dict changes nothing. *)
Theorem rename_twice d :
  startup.rename (startup.rename d startup.rename_map) startup.rename_map
  = startup.rename d startup.rename_map.
Proof.
  unfold startup.rename. simpl. f_equal. rewrite map_map. apply map_ext.
  intros [k s]. simpl. f_equal.
  destruct (decide (k ∈ ohlcv)) as [Hin|Hno].
  - unfold ohlcv in Hin.
    repeat (apply elem_of_cons in Hin as [->|Hin]; [reflexivity|]). inversion Hin.
  - by rewrite !(rename_label_other k Hno).
Qed.

(** X2.  A column whose label is not one of the six English names keeps
    its label through the preparation dict. *)
Theorem rename_keeps_other_labels label :
  label ∉ ohlcv -> startup.rename_label startup.rename_map label = label.
Proof. apply rename_label_other. Qed.

(** X3.  When no label is an empty tuple, the preparation returns a new
    frame and touches no other: it has the index of the download and the
    values of its columns, in their order, under the renamed first parts of
    the labels.  No row and no column is dropped. *)
Theorem prepare_keeps_rows_and_values raw σ :
  Forall (fun c => c.1 <> startup.LTuple []) (startup.raw_columns raw) ->
  exists labels d,
    mapR startup.flatten_label (map fst (startup.raw_columns raw)) = Ok labels
    /\ startup.prepare raw σ = (Ok (fresh (dom σ)), <[fresh (dom σ) := d]> σ)
    /\ σ !! fresh (dom σ) = None
    /\ pandas.index d = startup.raw_index raw
    /\ map snd (pandas.columns d) = map snd (startup.raw_columns raw)
    /\ pandas.names d = map (startup.rename_label startup.rename_map) labels.
Proof.
  intros Hlabels.
  destruct (mapR_Forall startup.flatten_label (map fst (startup.raw_columns raw)))
    as [labels Hl].
  { apply Forall_map. eapply list.Forall_impl; [exact Hlabels|].
    intros [[s|[|p ps]] v] Hc; simpl in *; by eauto. }
  pose proof (mapR_length _ _ _ Hl) as Hlen. rewrite length_map in Hlen.
  exists labels. eexists. split; [done|]. split.
  { apply prepare_run. unfold startup.flattened. by rewrite Hl, bind_Ok. }
  split.
  { unfold store in *. apply (not_elem_of_dom (D := gset loc)). apply is_fresh. }
  split; [reflexivity|]. split.
  - rewrite rename_values. simpl. apply (snd_zip labels). rewrite length_map. lia.
  - rewrite rename_names. f_equal. unfold pandas.names. simpl.
    apply (fst_zip labels). rewrite length_map. lia.
Qed.

(** X4.  An empty tuple among the labels makes [col[0]] fail: the
    preparation raises IndexError. *)
Theorem prepare_empty_tuple raw σ :
  startup.LTuple [] ∈ map fst (startup.raw_columns raw) ->
  (startup.prepare raw σ).1 = Raise IndexError.
Proof.
  intros Hin. unfold startup.prepare, startup.flattened, liftR. rewrite bind_run.
  assert (mapR startup.flatten_label (map fst (startup.raw_columns raw)) = Raise IndexError)
    as ->; [|done].
  induction (map fst (startup.raw_columns raw)) as [|l ls IH]; [inversion Hin|].
  apply elem_of_cons in Hin as [<-|Hin]; [done|].
  simpl. destruct (startup.flatten_label l) as [b|e] eqn:E.
  - rewrite bind_Ok, (IH Hin). done.
  - destruct l as [s|[|p ps]]; simpl in E; try discriminate. by injection E as <-.
Qed.

(** X5.  A download with the six columns of a daily bar, whatever their
    order and whether its labels are strings or tuples, is prepared into a
    PriceSeries: the frame the views rely on. *)
Theorem prepare_gives_PriceSeries raw σ d0 :
  startup.flattened raw = Ok d0 -> Download d0 ->
  exists d, startup.prepare raw σ = (Ok (fresh (dom σ)), <[fresh (dom σ) := d]> σ)
            /\ PriceSeries d.
Proof.
  intros Hflat Hdl. exists (startup.rename d0 startup.rename_map).
  split; [by apply prepare_run|by apply Download_PriceSeries].
Qed.

End PrepareFacts.

(** ** The line chart off the prepared frame *)

Section GraphFacts.
Context {V : Type} `{Numerics V}.
Variable df : loc.
Implicit Types (d : pandas.DataFrame V) (s : pandas.Series V) (σ : store V).

(** X6.  For a field that is not a column [update_graph] returns the
    placeholder on any frame at all: the membership test comes first, and
    neither the field nor [Fecha] is looked up. *)
Theorem update_graph_missing_column σ d field :
  σ !! df = Some d -> field ∉ pandas.names d ->
  app.update_graph df field σ = (Ok placeholder_figure, σ).
Proof. apply update_graph_absent. Qed.

(** X7.  The guard does not cover [Fecha]: on a frame without that column,
    a field that has a non-null value makes [update_graph] raise
    KeyError. *)
Theorem update_graph_without_Fecha σ d field s :
  σ !! df = Some d -> NoDup (pandas.names d) -> "Fecha" ∉ pandas.names d ->
  (field, s) ∈ pandas.columns d -> pandas.isnull_all s = false ->
  app.update_graph df field σ = (Raise (KeyError "Fecha"), σ).
Proof.
  intros Hσ Hnd Hno Hin Hnull.
  unfold app.update_graph, df_contains, df_getitem, liftR, load.
  unfold mbind, mret, M_bind, M_ret. rewrite Hσ. simpl.
  rewrite contains_true by (by eapply column_name).
  rewrite Hσ. rewrite (getitem_unique d field s) by done. simpl.
  rewrite Hnull. simpl. rewrite Hσ. by rewrite getitem_absent.
Qed.

(** X8.  When the field labels two or more columns, [df[price_type]] is a
    frame, the truth value of its [isnull().all()] is ambiguous, and
    [update_graph] raises ValueError. *)
Theorem update_graph_repeated_label σ d field :
  σ !! df = Some d ->
  2 <= length (filter (fun c => c.1 = field) (pandas.columns d)) ->
  app.update_graph df field σ
  = (Raise (ValueError "The truth value of a Series is ambiguous"), σ).
Proof.
  intros Hσ Hlen.
  destruct (filter (fun c => c.1 = field) (pandas.columns d)) as [|c1 [|c2 cs]] eqn:E;
    simpl in Hlen; try lia.
  assert (field ∈ pandas.names d) as Hin.
  { assert (c1 ∈ filter (fun c => c.1 = field) (pandas.columns d)) as Hc
      by (rewrite E; left).
    apply list_elem_of_filter in Hc as [<- Hc]. apply list_elem_of_fmap. by exists c1. }
  unfold app.update_graph, df_contains, df_getitem, liftR, load.
  unfold mbind, mret, M_bind, M_ret. rewrite Hσ. simpl.
  rewrite contains_true by done. rewrite Hσ. unfold pandas.getitem. by rewrite E.
Qed.

(** X9.  On a PriceSeries without rows every column is entirely null, so
    [update_graph] returns the placeholder for every field. *)
Theorem update_graph_no_rows σ d field :
  σ !! df = Some d -> PriceSeries d -> pandas.nrows d = 0 ->
  app.update_graph df field σ = (Ok placeholder_figure, σ).
Proof.
  intros Hσ Hps Hrows.
  destruct (update_graph_cases df σ d field Hσ Hps)
    as [[Hrun _]|(ts & s & _ & Hs & Hnull & _)]; [done|].
  pose proof (PriceSeries_rows d _ _ Hps Hs) as Hlen. rewrite Hrows in Hlen.
  unfold pandas.series_len in Hlen. unfold pandas.isnull_all in Hnull.
  destruct (pandas.cells s); [discriminate|discriminate].
Qed.

(** X10.  Each option of the dropdown names a numeric column of a
    PriceSeries, so a choice made in the dropdown never reaches the
    missing-column case: the placeholder is shown exactly when the chosen
    column has no non-null value, and the line otherwise. *)
Theorem dropdown_options_are_columns σ d option :
  σ !! df = Some d -> PriceSeries d -> option ∈ startup.price_type_options ->
  exists s, (option.2, s) ∈ pandas.columns d
    /\ is_number s = true
    /\ (pandas.count s = 0 ->
        app.update_graph df option.2 σ = (Ok placeholder_figure, σ))
    /\ (0 < pandas.count s ->
        exists x, app.update_graph df option.2 σ = (Ok (line_figure x s option.2), σ)).
Proof.
  intros Hσ Hps Hopt. pose proof (PriceSeries_NoDup d Hps) as Hnd.
  assert (option.2 ∈ fields /\ option.2 <> "Fecha") as [Hfield Hne].
  { unfold startup.price_type_options in Hopt. simpl in Hopt.
    repeat (apply elem_of_cons in Hopt as [->|Hopt]; [split; [by_evaluation|done]|]).
    inversion Hopt. }
  destruct (name_column d option.2) as [s Hs]; [by rewrite (ps_fields _ Hps)|].
  exists s. split; [done|]. split.
  { pose proof (ps_dtypes _ Hps) as Hdt. rewrite list.Forall_forall in Hdt.
    specialize (Hdt _ Hs). unfold dtype_ok in Hdt. simpl in Hdt.
    by rewrite bool_decide_eq_false_2 in Hdt. }
  split.
  - intros Hc. apply isnull_all_count in Hc.
    by apply (update_graph_all_null df σ d option.2 s).
  - intros Hc. destruct (PriceSeries_Fecha d Hps) as [ts Hts].
    exists (pandas.Datetime64 ts). apply (update_graph_line df σ d); try done.
    destruct (pandas.isnull_all s) eqn:E; [|done]. apply isnull_all_count in E. lia.
Qed.

End GraphFacts.

(** ** The statistics table in detail *)

Section TableFacts.
Context {V : Type} `{Numerics V}.
Variable df : loc.
Implicit Types (d : pandas.DataFrame V) (s : pandas.Series V) (σ : store V).

Lemma update_table_run_frames σ d field :
  σ !! df = Some d ->
  exists σ', app.update_table df field σ = (summary_table d, σ')
             /\ forall l d', σ !! l = Some d' -> σ' !! l = Some d'.
Proof.
  intros Hσ. unfold app.update_table, summary_table.
  rewrite bind_run, (df_describe_run σ df d Hσ).
  destruct (pandas.describe d) as [r1|e]; [|exists σ; split; [reflexivity|done]].
  rewrite bind_Ok.
  set (l1 := fresh (dom σ)). set (σ1 := <[l1 := r1]> σ).
  assert (σ1 !! l1 = Some r1) as H1 by (unfold store in *; apply lookup_insert_eq).
  assert (forall l d', σ !! l = Some d' -> σ1 !! l = Some d') as Hkeep1
    by (intros l d' Hl; by apply lookup_alloc).
  rewrite bind_run, (df_reset_index_run σ1 l1 r1 H1).
  destruct (pandas.reset_index r1) as [r2|e]; [|exists σ1; split; [reflexivity|done]].
  rewrite bind_Ok.
  set (l2 := fresh (dom σ1)). set (σ2 := <[l2 := r2]> σ1).
  assert (σ2 !! l2 = Some r2) as H2 by (unfold store in *; apply lookup_insert_eq).
  assert (forall l d', σ !! l = Some d' -> σ2 !! l = Some d') as Hkeep2
    by (intros l d' Hl; apply lookup_alloc; by apply Hkeep1).
  rewrite bind_run, (df_columns_run σ2 l2 r2 H2).
  rewrite bind_run, (df_set_columns_run σ2 l2 r2 _ H2).
  destruct (pandas.set_columns r2 (map pandas.str (pandas.names r2))) as [r3|e];
    [|exists σ2; split; [reflexivity|done]].
  set (σ3 := <[l2 := r3]> σ2).
  assert (σ3 !! l2 = Some r3) as H3 by (unfold store in *; apply lookup_insert_eq).
  rewrite bind_run, (df_to_dict_records_run σ3 l2 r3 H3).
  rewrite bind_run, (df_columns_run σ3 l2 r3 H3).
  exists σ3. split; [reflexivity|].
  intros l d' Hl. subst σ3. unfold store in *. rewrite lookup_insert_ne.
  - by apply Hkeep2.
  - apply (fresh_ne σ1 l d'). by apply Hkeep1.
Qed.

(** X11.  [update_table] writes only to the frames it creates: every frame
    that was in the store before the call is there after it, unchanged,
    whether the call returns or raises. *)
Theorem update_table_keeps_frames σ field l d' :
  σ !! l = Some d' -> (app.update_table df field σ).2 !! l = Some d'.
Proof.
  intros Hl. destruct (σ !! df) as [d|] eqn:Hσ.
  - destruct (update_table_run_frames σ d field Hσ) as (σ' & Hrun & Hkeep).
    rewrite Hrun. by apply Hkeep.
  - by rewrite (update_table_unbound df σ field Hσ).
Qed.

(** X12.  A frame without columns cannot be described: [update_table]
    raises ValueError and the store is as before. *)
Theorem update_table_no_columns σ d field :
  σ !! df = Some d -> pandas.columns d = [] ->
  app.update_table df field σ
  = (Raise (ValueError "Cannot describe a DataFrame without columns"), σ).
Proof.
  intros Hσ Hcols. unfold app.update_table.
  rewrite bind_run, (df_describe_run σ df d Hσ). unfold pandas.describe. by rewrite Hcols.
Qed.

Lemma zip_names_described (cols : list (string * pandas.Series V)) :
  zip (map fst cols)
      (map (fun x => pandas.pack (pandas.reindex described_index x))
           (map (fun c => pandas.describe_1d c.2) cols))
  = map (fun c => (c.1, described_column c.2)) cols.
Proof.
  induction cols as [|c cols IH]; [done|].
  cbn [map zip_with]. by rewrite IH.
Qed.

Lemma PriceSeries_describe_columns d :
  PriceSeries d ->
  pandas.describe d =
  Ok {| pandas.index := pandas.Labels described_index;
        pandas.columns := map (fun c => (c.1, described_column c.2)) (pandas.columns d) |}.
Proof.
  intros Hps. unfold pandas.describe.
  destruct (PriceSeries_Fecha d Hps) as [ts Hfecha].
  destruct (name_column d "Cierre") as [s Hcierre].
  { rewrite (ps_fields _ Hps). by_evaluation. }
  rewrite PriceSeries_select_data by done.
  destruct (pandas.columns d) as [|c0 cols0] eqn:Hcols; [inversion Hfecha|].
  rewrite <- Hcols in *.
  rewrite (reorder_stat_index _ (pandas.columns d)
             ("Fecha", pandas.Datetime64 ts) ("Cierre", s)); try done.
  - do 2 f_equal. apply zip_names_described.
  - rewrite map_map. apply map_ext_in. intros c Hc. apply describe_1d_index.
    pose proof (ps_dtypes _ Hps) as Hdt. rewrite list.Forall_forall in Hdt.
    apply list_elem_of_In in Hc. specialize (Hdt _ Hc). unfold dtype_ok in Hdt.
    destruct c as [k s']. simpl in *.
    destruct (bool_decide (k = "Fecha")), s'; done.
  - pose proof (ps_dtypes _ Hps) as Hdt. rewrite list.Forall_forall in Hdt.
    specialize (Hdt _ Hcierre). unfold dtype_ok in Hdt. simpl in Hdt.
    by destruct s.
Qed.

Lemma resumen_names d :
  pandas.names (resumen_frame d) = "index" :: pandas.names d.
Proof. unfold pandas.names, resumen_frame. simpl. by rewrite map_map. Qed.

Lemma PriceSeries_resumen d :
  PriceSeries d ->
  exists t, summary_table d = Ok t
            /\ dash.data t = pandas.to_dict_records (resumen_frame d)
            /\ dash.columns t = map (fun i => (i, i)) ("index" :: pandas.names d).
Proof.
  intros Hps. unfold summary_table.
  rewrite (PriceSeries_describe_columns d Hps), bind_Ok.
  assert ("index" ∉ pandas.names d) as Hindex.
  { rewrite (ps_fields _ Hps). by_evaluation. }
  rewrite reset_index_fresh.
  2:{ unfold pandas.names at 1. cbn [pandas.columns]. rewrite map_map. exact Hindex. }
  rewrite bind_Ok, set_columns_same, bind_Ok.
  eexists. split; [reflexivity|]. split; [reflexivity|].
  cbn [dash.columns]. f_equal. apply resumen_names.
Qed.

Lemma foldl_insert_is_Some (cols : list (string * pandas.Series V)) i k
    (m : gmap string (Cell V)) :
  is_Some (foldl (fun m c => <[c.1 := nth i (pandas.cells c.2) CNone]> m) m cols !! k)
  <-> is_Some (m !! k) \/ k ∈ map fst cols.
Proof.
  revert m. induction cols as [|[k' s'] cols IH]; intros m; simpl.
  - split; [by left|]. intros [?|Hin]; [done|inversion Hin].
  - rewrite IH, lookup_insert_is_Some, elem_of_cons. simpl.
    destruct (decide (k' = k)) as [->|Hne]; intuition congruence.
Qed.

Lemma foldl_insert_lookup (cols : list (string * pandas.Series V)) i k s
    (m : gmap string (Cell V)) :
  NoDup (map fst cols) -> (k, s) ∈ cols ->
  foldl (fun m c => <[c.1 := nth i (pandas.cells c.2) CNone]> m) m cols !! k
  = Some (nth i (pandas.cells s) CNone).
Proof.
  revert m. induction cols as [|[k' s'] cols IH]; intros m Hnd Hin; [inversion Hin|].
  simpl in *. apply list.NoDup_cons in Hnd as [Hk Hnd].
  apply elem_of_cons in Hin as [Heq|Hin].
  - injection Heq as <- <-. rewrite foldl_insert_other by done. apply lookup_insert_eq.
  - by apply IH.
Qed.

(** X13.  The table of a PriceSeries has the column [index] followed by the
    columns of [df] in their order, and every record carries a value for
    exactly these columns. *)
Theorem update_table_columns σ d field :
  σ !! df = Some d -> PriceSeries d ->
  exists t σ', app.update_table df field σ = (Ok t, σ')
    /\ dash.columns t = map (fun i => (i, i)) ("index" :: pandas.names d)
    /\ Forall (fun r => forall k, is_Some (r !! k) <-> k ∈ "index" :: pandas.names d)
              (dash.data t).
Proof.
  intros Hσ Hps. destruct (update_table_run df σ d field Hσ) as (σ' & Hrun & _).
  destruct (PriceSeries_resumen d Hps) as (t & Ht & Hdata & Hcols).
  exists t, σ'. rewrite Hrun, Ht. split; [done|]. split; [done|].
  rewrite Hdata. unfold pandas.to_dict_records. apply Forall_map, list.Forall_forall.
  intros i _ k. unfold pandas.record_at. rewrite foldl_insert_is_Some.
  rewrite lookup_empty. fold (pandas.names (resumen_frame d)). rewrite resumen_names.
  split; [intros [[? ?]|?]; done|by right].
Qed.

(** X14.  In the table of a PriceSeries the first row is the one labelled
    [count], and for each numeric column of [df] it holds the number of
    non-null values of that column. *)
Theorem update_table_count_row σ d field name s :
  σ !! df = Some d -> PriceSeries d ->
  (name, s) ∈ pandas.columns d -> is_number s = true ->
  exists t σ' r rest,
    app.update_table df field σ = (Ok t, σ')
    /\ dash.data t = r :: rest
    /\ r !! "index" = Some (CStr "count")
    /\ r !! name = Some (CFloat (f_of_Z (Z.of_nat (pandas.count s)))).
Proof.
  intros Hσ Hps Hs Hnum. destruct (update_table_run df σ d field Hσ) as (σ' & Hrun & _).
  destruct (PriceSeries_resumen d Hps) as (t & Ht & Hdata & _).
  pose proof (PriceSeries_NoDup d Hps) as Hnd.
  assert ("index" ∉ pandas.names d) as Hindex.
  { rewrite (ps_fields _ Hps). by_evaluation. }
  assert (NoDup (pandas.names (resumen_frame d))) as Hnd'.
  { rewrite resumen_names. by apply list.NoDup_cons. }
  exists t, σ'. eexists. eexists. rewrite Hrun, Ht. split; [done|].
  split; [rewrite Hdata; reflexivity|]. unfold pandas.record_at. split.
  - rewrite (foldl_insert_lookup _ 0 "index"
               (pandas.Object (map CStr described_index))); [done|done|left].
  - rewrite (foldl_insert_lookup _ 0 name (described_column s)); [|done|].
    + destruct s; try discriminate; reflexivity.
    + right. apply list_elem_of_fmap. by exists (name, s).
Qed.

End TableFacts.

(** ** The autocorrelation figures at start-up *)

Section StartupFacts.
Context {V : Type} `{Numerics V}.
Implicit Types (d : pandas.DataFrame V) (s : pandas.Series V) (σ : store V).
Implicit Types (x : list V).

Lemma generar_acf_pacf_accepted series x n σ :
  statsmodels.array_like series = Ok x -> 1 <= n -> admissible x n = true ->
  exists acf_vals pacf_vals,
    app.generar_acf_pacf series n σ
    = (Ok (bar_figure (seq 0 (n + 1)) acf_vals app.colors_accent "ACF del Precio",
           bar_figure (seq 0 (n + 1)) pacf_vals app.colors_secondary "PACF del Precio"),
       σ)
    /\ length acf_vals = n + 1 /\ length pacf_vals = n + 1.
Proof.
  intros Hx Hn1 Hadm. unfold admissible in Hadm.
  apply andb_true_iff in Hadm as [Hpos Hn].
  apply Nat.ltb_lt in Hpos. apply Nat.leb_le in Hn.
  destruct (acf_length x n Hpos) as (a & Ha & Hla).
  assert (n + 1 <= length x) as Hle.
  { pose proof (Nat.Div0.mul_div_le (length x) 2). lia. }
  rewrite Nat.min_l in Hla by done.
  exists a, (statsmodels.pacf_yw x n).
  rewrite (generar_acf_pacf_run series x n σ Hx), Ha, (pacf_accepts x n Hn), !bind_Ok.
  rewrite (Nat.max_l n 1) by done.
  unfold np.arange. rewrite Hla. split; [reflexivity|]. split; [done|].
  apply pacf_yw_length.
Qed.

Lemma generar_acf_pacf_refused series x nlags σ :
  statsmodels.array_like series = Ok x ->
  0 < length x -> length x / 2 < nlags ->
  app.generar_acf_pacf series nlags σ = (Raise pacf_refusal, σ).
Proof.
  intros Hx Hpos Hshort. rewrite (generar_acf_pacf_run series x nlags σ Hx).
  destruct (acf_length x nlags Hpos) as (a & Ha & _). rewrite Ha, bind_Ok.
  unfold statsmodels.pacf. rewrite (Nat.max_l nlags 1) by lia.
  by destruct (Nat.ltb_spec (length x / 2) nlags); [|lia].
Qed.

Lemma count_floats (xs : list V) :
  length (filter (fun v => f_isnan v = false) xs) = pandas.count (pandas.Float64 xs).
Proof.
  unfold pandas.count. cbn [pandas.cells]. induction xs as [|v xs IH]; [done|].
  cbn [map]. rewrite !filter_cons. cbn [pandas.cell_isnull].
  destruct (decide (f_isnan v = false)); cbn [length]; by rewrite IH.
Qed.

Lemma count_ints (zs : list Z) : length zs = pandas.count (pandas.Int64 zs).
Proof.
  unfold pandas.count. cbn [pandas.cells]. induction zs as [|z zs IH]; [done|].
  cbn [map]. rewrite filter_cons. cbn [pandas.cell_isnull].
  rewrite decide_True by done. cbn [length]. by rewrite IH.
Qed.

(** What start-up hands to [acf] and [pacf]: the non-null values. *)
Lemma array_like_dropna s :
  is_number s = true ->
  exists x, statsmodels.array_like (pandas.dropna s) = Ok x
            /\ length x = pandas.count s.
Proof.
  destruct s as [xs|zs|ts|cs]; try discriminate; intros _; simpl.
  - eexists. split; [reflexivity|]. apply count_floats.
  - eexists. split; [reflexivity|]. rewrite length_map. apply count_ints.
Qed.

Lemma startup_run df σ d s :
  σ !! df = Some d -> NoDup (pandas.names d) -> ("Cierre", s) ∈ pandas.columns d ->
  app.startup_acf_pacf df σ = app.generar_acf_pacf (pandas.dropna s) app.default_nlags σ.
Proof.
  intros Hσ Hnd Hs. unfold app.startup_acf_pacf, df_getitem, load, liftR.
  rewrite !bind_run, Hσ. by rewrite (getitem_unique d "Cierre" s).
Qed.

Lemma PriceSeries_number d name s :
  PriceSeries d -> (name, s) ∈ pandas.columns d -> name <> "Fecha" -> is_number s = true.
Proof.
  intros Hps Hs Hne. pose proof (ps_dtypes _ Hps) as Hdt.
  rewrite list.Forall_forall in Hdt. specialize (Hdt _ Hs).
  unfold dtype_ok in Hdt. simpl in Hdt. by rewrite bool_decide_eq_false_2 in Hdt.
Qed.

Lemma startup_enough df σ d s :
  σ !! df = Some d -> PriceSeries d -> ("Cierre", s) ∈ pandas.columns d ->
  80 <= pandas.count s ->
  exists acf_vals pacf_vals,
    app.startup_acf_pacf df σ
    = (Ok (bar_figure (seq 0 41) acf_vals app.colors_accent "ACF del Precio",
           bar_figure (seq 0 41) pacf_vals app.colors_secondary "PACF del Precio"),
       σ)
    /\ length acf_vals = 41 /\ length pacf_vals = 41.
Proof.
  intros Hσ Hps Hs Hcount.
  rewrite (startup_run df σ d s Hσ (PriceSeries_NoDup d Hps) Hs).
  destruct (array_like_dropna s) as (x & Hx & Hlen);
    [by apply (PriceSeries_number d "Cierre")|].
  destruct (generar_acf_pacf_accepted (pandas.dropna s) x app.default_nlags σ Hx)
    as (a & p & Hrun & Ha & Hp).
  - unfold app.default_nlags. lia.
  - unfold admissible, app.default_nlags. rewrite Hlen.
    apply andb_true_iff. split; [apply Nat.ltb_lt; lia|apply Nat.leb_le].
    apply (Nat.Div0.div_le_mono 80 _ 2); lia.
  - exists a, p. by rewrite Hrun.
Qed.

Lemma startup_too_few df σ d s :
  σ !! df = Some d -> PriceSeries d -> ("Cierre", s) ∈ pandas.columns d ->
  0 < pandas.count s -> pandas.count s < 80 ->
  app.startup_acf_pacf df σ = (Raise pacf_refusal, σ).
Proof.
  intros Hσ Hps Hs Hpos Hfew.
  rewrite (startup_run df σ d s Hσ (PriceSeries_NoDup d Hps) Hs).
  destruct (array_like_dropna s) as (x & Hx & Hlen);
    [by apply (PriceSeries_number d "Cierre")|].
  apply (generar_acf_pacf_refused _ x); [done|lia|].
  rewrite Hlen. unfold app.default_nlags. apply Nat.Div0.div_lt_upper_bound. lia.
Qed.

(** X15.  [generar_acf_pacf] refuses every series that is not empty and has
    fewer than twice [nlags] values: [acf] is computed, [pacf] raises
    ValueError, and no figure is returned. *)
Theorem generar_acf_pacf_short_series series x nlags σ :
  statsmodels.array_like series = Ok x ->
  0 < length x -> length x / 2 < nlags ->
  app.generar_acf_pacf series nlags σ = (Raise pacf_refusal, σ).
Proof. apply generar_acf_pacf_refused. Qed.

(** X16.  At start-up the figures are computed from the non-null closing
    prices.  With at least 80 of them both figures have 41 bars, over the
    lags 0 to 40. *)
Theorem startup_acf_pacf_enough_closes df σ d s :
  σ !! df = Some d -> PriceSeries d -> ("Cierre", s) ∈ pandas.columns d ->
  80 <= pandas.count s ->
  exists acf_vals pacf_vals,
    app.startup_acf_pacf df σ
    = (Ok (bar_figure (seq 0 41) acf_vals app.colors_accent "ACF del Precio",
           bar_figure (seq 0 41) pacf_vals app.colors_secondary "PACF del Precio"),
       σ)
    /\ length acf_vals = 41 /\ length pacf_vals = 41.
Proof. apply startup_enough. Qed.

(** X17.  With between 1 and 79 non-null closing prices the start-up call
    raises ValueError, however many rows the frame has. *)
Theorem startup_acf_pacf_too_few_closes df σ d s :
  σ !! df = Some d -> PriceSeries d -> ("Cierre", s) ∈ pandas.columns d ->
  0 < pandas.count s -> pandas.count s < 80 ->
  app.startup_acf_pacf df σ = (Raise pacf_refusal, σ).
Proof. apply startup_too_few. Qed.

Lemma prepared_close d0 s :
  ("Close", s) ∈ pandas.columns d0 ->
  ("Cierre", s) ∈ pandas.columns (startup.rename d0 startup.rename_map).
Proof.
  intros Hs. unfold startup.rename. simpl. apply list_elem_of_fmap. by exists ("Close", s).
Qed.

(** X18.  Loading the module on a download of the six daily columns with
    at least 80 non-null closing prices succeeds: [df] is a new frame, a
    PriceSeries, and both autocorrelation figures have 41 bars. *)
Theorem main_loads raw σ d0 s :
  startup.flattened raw = Ok d0 -> Download d0 ->
  ("Close", s) ∈ pandas.columns d0 -> 80 <= pandas.count s ->
  exists d acf_vals pacf_vals,
    startup.main raw σ
    = (Ok (fresh (dom σ),
           (bar_figure (seq 0 41) acf_vals app.colors_accent "ACF del Precio",
            bar_figure (seq 0 41) pacf_vals app.colors_secondary "PACF del Precio")),
       <[fresh (dom σ) := d]> σ)
    /\ PriceSeries d /\ length acf_vals = 41 /\ length pacf_vals = 41.
Proof.
  intros Hflat Hdl Hs Hcount. set (d := startup.rename d0 startup.rename_map).
  pose proof (Download_PriceSeries d0 Hdl) as Hps. fold d in Hps.
  assert ((<[fresh (dom σ) := d]> σ : store V) !! fresh (dom σ) = Some d) as Hdf
    by (unfold store in *; apply lookup_insert_eq).
  destruct (startup_enough (fresh (dom σ)) _ d s Hdf Hps (prepared_close d0 s Hs) Hcount)
    as (a & p & Hrun & Ha & Hp).
  exists d, a, p. split; [|done].
  unfold startup.main. rewrite bind_run, (prepare_run raw σ d0 Hflat). fold d.
  by rewrite bind_run, Hrun.
Qed.

(** X19.  With between 1 and 79 non-null closing prices the module does
    not load: [df] is prepared, then the autocorrelation call raises
    ValueError. *)
Theorem main_fails_on_short_history raw σ d0 s :
  startup.flattened raw = Ok d0 -> Download d0 ->
  ("Close", s) ∈ pandas.columns d0 ->
  0 < pandas.count s -> pandas.count s < 80 ->
  startup.main raw σ
  = (Raise pacf_refusal,
     <[fresh (dom σ) := startup.rename d0 startup.rename_map]> σ).
Proof.
  intros Hflat Hdl Hs Hpos Hfew. set (d := startup.rename d0 startup.rename_map).
  pose proof (Download_PriceSeries d0 Hdl) as Hps. fold d in Hps.
  assert ((<[fresh (dom σ) := d]> σ : store V) !! fresh (dom σ) = Some d) as Hdf
    by (unfold store in *; apply lookup_insert_eq).
  unfold startup.main. rewrite bind_run, (prepare_run raw σ d0 Hflat). fold d.
  by rewrite bind_run,
    (startup_too_few (fresh (dom σ)) _ d s Hdf Hps (prepared_close d0 s Hs) Hpos Hfew).
Qed.

Lemma rename_label_Cierre label :
  startup.rename_label startup.rename_map label = "Cierre" ->
  label = "Close" \/ label = "Cierre".
Proof.
  intros E. destruct (decide (label ∈ ohlcv)) as [Hin|Hno].
  - unfold ohlcv in Hin.
    repeat (apply elem_of_cons in Hin as [->|Hin];
            [first [by left | by vm_compute in E]|]).
    inversion Hin.
  - rewrite (rename_label_other label Hno) in E. by right.
Qed.

(** X20.  A download without a [Close] column is prepared all the same, and
    the module then fails at the autocorrelation call with KeyError on
    [Cierre]. *)
Theorem main_fails_without_close raw σ d0 :
  startup.flattened raw = Ok d0 ->
  "Close" ∉ pandas.names d0 -> "Cierre" ∉ pandas.names d0 ->
  startup.main raw σ
  = (Raise (KeyError "Cierre"),
     <[fresh (dom σ) := startup.rename d0 startup.rename_map]> σ).
Proof.
  intros Hflat Hclose Hcierre. set (d := startup.rename d0 startup.rename_map).
  assert ("Cierre" ∉ pandas.names d) as Hno.
  { subst d. rewrite rename_names. intros Hin.
    apply list_elem_of_fmap in Hin as (k & Hk & Hin). symmetry in Hk.
    apply rename_label_Cierre in Hk as [->| ->]; done. }
  unfold startup.main. rewrite bind_run, (prepare_run raw σ d0 Hflat). fold d.
  rewrite bind_run. unfold app.startup_acf_pacf, df_getitem, load, liftR.
  rewrite !bind_run. unfold store in *. rewrite lookup_insert_eq.
  by rewrite (getitem_absent d "Cierre" Hno).
Qed.

End StartupFacts.

(** * The further properties on sample data *)

Ltac sample_is_download :=
  split; [reflexivity | repeat constructor | repeat constructor].

Lemma rename_keeps_other_labels_witness :
  ("Adj Close" ∉ ohlcv)
  /\ startup.rename_label startup.rename_map "Adj Close" = "Adj Close".
Proof.
  split; [by_evaluation|].
  apply (rename_keeps_other_labels "Adj Close"). by_evaluation.
Defined.

Lemma prepare_keeps_rows_and_values_witness :
  exists labels d,
    mapR startup.flatten_label (map fst (startup.raw_columns (SampleDownload.raw 3)))
    = Ok labels
    /\ startup.prepare (SampleDownload.raw 3) Sample.store0
       = (Ok (fresh (dom Sample.store0)), <[fresh (dom Sample.store0) := d]> Sample.store0)
    /\ Sample.store0 !! fresh (dom Sample.store0) = None
    /\ pandas.index d = startup.raw_index (SampleDownload.raw 3)
    /\ map snd (pandas.columns d) = map snd (startup.raw_columns (SampleDownload.raw 3))
    /\ pandas.names d = map (startup.rename_label startup.rename_map) labels.
Proof.
  apply (prepare_keeps_rows_and_values (SampleDownload.raw 3) Sample.store0).
  repeat (constructor; [discriminate|]). constructor.
Defined.

Lemma prepare_empty_tuple_witness :
  (startup.prepare SampleDownload.bad_label Sample.store0).1 = Raise IndexError.
Proof.
  apply (prepare_empty_tuple SampleDownload.bad_label Sample.store0).
  right. left.
Defined.

Lemma prepare_gives_PriceSeries_witness :
  exists d,
    startup.prepare (SampleDownload.raw 3) Sample.store0
    = (Ok (fresh (dom Sample.store0)), <[fresh (dom Sample.store0) := d]> Sample.store0)
    /\ PriceSeries d.
Proof.
  apply (prepare_gives_PriceSeries (SampleDownload.raw 3) Sample.store0
           (SampleDownload.flat 3)).
  - reflexivity.
  - sample_is_download.
Defined.

Lemma update_graph_missing_column_witness :
  app.update_graph Sample.df "Apertura" (SampleDownload.sample_store SampleDownload.no_dates)
  = (Ok placeholder_figure, SampleDownload.sample_store SampleDownload.no_dates).
Proof.
  apply (update_graph_missing_column Sample.df _ SampleDownload.no_dates).
  - reflexivity.
  - by_evaluation.
Defined.

Lemma update_graph_without_Fecha_witness :
  app.update_graph Sample.df "Cierre" (SampleDownload.sample_store SampleDownload.no_dates)
  = (Raise (KeyError "Fecha"), SampleDownload.sample_store SampleDownload.no_dates).
Proof.
  apply (update_graph_without_Fecha Sample.df _ SampleDownload.no_dates "Cierre"
           (pandas.Float64 [Sample.q 1; Sample.q 2])).
  - reflexivity.
  - by_evaluation.
  - by_evaluation.
  - repeat constructor.
  - reflexivity.
Defined.

Lemma update_graph_repeated_label_witness :
  app.update_graph Sample.df "Cierre" (SampleDownload.sample_store SampleDownload.twice)
  = (Raise (ValueError "The truth value of a Series is ambiguous"),
     SampleDownload.sample_store SampleDownload.twice).
Proof.
  apply (update_graph_repeated_label Sample.df _ SampleDownload.twice).
  - reflexivity.
  - vm_compute. lia.
Defined.

Lemma update_graph_no_rows_witness :
  app.update_graph Sample.df "Cierre" (SampleDownload.sample_store SampleDownload.no_rows)
  = (Ok placeholder_figure, SampleDownload.sample_store SampleDownload.no_rows).
Proof.
  apply (update_graph_no_rows Sample.df _ SampleDownload.no_rows).
  - reflexivity.
  - sample_is_price_series.
  - reflexivity.
Defined.

Lemma dropdown_options_are_columns_witness :
  exists s, ("Cierre", s) ∈ pandas.columns Sample.prices
    /\ is_number s = true
    /\ (pandas.count s = 0 ->
        app.update_graph Sample.df "Cierre" Sample.store0
        = (Ok placeholder_figure, Sample.store0))
    /\ (0 < pandas.count s ->
        exists x, app.update_graph Sample.df "Cierre" Sample.store0
                  = (Ok (line_figure x s "Cierre"), Sample.store0)).
Proof.
  apply (dropdown_options_are_columns Sample.df Sample.store0 Sample.prices
           ("Cierre", "Cierre")).
  - reflexivity.
  - sample_is_price_series.
  - by_evaluation.
Defined.

Lemma update_table_keeps_frames_witness :
  (app.update_table Sample.df "Cierre" Sample.store0).2 !! Sample.df = Some Sample.prices.
Proof.
  apply (update_table_keeps_frames Sample.df Sample.store0 "Cierre" Sample.df Sample.prices).
  reflexivity.
Defined.

Lemma update_table_no_columns_witness :
  app.update_table Sample.df "Cierre" (SampleDownload.sample_store SampleDownload.no_columns)
  = (Raise (ValueError "Cannot describe a DataFrame without columns"),
     SampleDownload.sample_store SampleDownload.no_columns).
Proof.
  apply (update_table_no_columns Sample.df _ SampleDownload.no_columns).
  - reflexivity.
  - reflexivity.
Defined.

Lemma update_table_columns_witness :
  exists t σ',
    app.update_table Sample.df "Cierre" Sample.store0 = (Ok t, σ')
    /\ dash.columns t = map (fun i => (i, i)) ("index" :: pandas.names Sample.prices)
    /\ Forall (fun r => forall k, is_Some (r !! k) <-> k ∈ "index" :: pandas.names Sample.prices)
              (dash.data t).
Proof.
  apply (update_table_columns Sample.df Sample.store0 Sample.prices).
  - reflexivity.
  - sample_is_price_series.
Defined.

Lemma update_table_count_row_witness :
  exists t σ' r rest,
    app.update_table Sample.df "Maximo" Sample.store0 = (Ok t, σ')
    /\ dash.data t = r :: rest
    /\ r !! "index" = Some (CStr "count")
    /\ r !! "Cierre"
       = Some (CFloat (f_of_Z (Z.of_nat
            (pandas.count (pandas.Float64 [Sample.q 10; None; Sample.q 12]))))).
Proof.
  apply (update_table_count_row Sample.df Sample.store0 Sample.prices).
  - reflexivity.
  - sample_is_price_series.
  - repeat constructor.
  - reflexivity.
Defined.

Lemma generar_acf_pacf_short_series_witness :
  app.generar_acf_pacf (pandas.Float64 (Sample.ramp 41)) app.default_nlags Sample.store0
  = (Raise pacf_refusal, Sample.store0).
Proof.
  apply (generar_acf_pacf_short_series _ (Sample.ramp 41)).
  - reflexivity.
  - vm_compute. lia.
  - vm_compute. lia.
Defined.

Lemma startup_acf_pacf_enough_closes_witness :
  exists acf_vals pacf_vals,
    app.startup_acf_pacf Sample.df (SampleDownload.sample_store (SampleDownload.prices 80))
    = (Ok (bar_figure (seq 0 41) acf_vals app.colors_accent "ACF del Precio",
           bar_figure (seq 0 41) pacf_vals app.colors_secondary "PACF del Precio"),
       SampleDownload.sample_store (SampleDownload.prices 80))
    /\ length acf_vals = 41 /\ length pacf_vals = 41.
Proof.
  apply (startup_acf_pacf_enough_closes Sample.df _ (SampleDownload.prices 80)
           (pandas.Float64 (Sample.ramp 80))).
  - reflexivity.
  - sample_is_price_series.
  - repeat constructor.
  - vm_compute. lia.
Defined.

Lemma startup_acf_pacf_too_few_closes_witness :
  app.startup_acf_pacf Sample.df Sample.store0 = (Raise pacf_refusal, Sample.store0).
Proof.
  apply (startup_acf_pacf_too_few_closes Sample.df Sample.store0 Sample.prices
           (pandas.Float64 [Sample.q 10; None; Sample.q 12])).
  - reflexivity.
  - sample_is_price_series.
  - repeat constructor.
  - vm_compute. lia.
  - vm_compute. lia.
Defined.

Lemma main_loads_witness :
  exists d acf_vals pacf_vals,
    startup.main (SampleDownload.raw 80) Sample.store0
    = (Ok (fresh (dom Sample.store0),
           (bar_figure (seq 0 41) acf_vals app.colors_accent "ACF del Precio",
            bar_figure (seq 0 41) pacf_vals app.colors_secondary "PACF del Precio")),
       <[fresh (dom Sample.store0) := d]> Sample.store0)
    /\ PriceSeries d /\ length acf_vals = 41 /\ length pacf_vals = 41.
Proof.
  apply (main_loads (SampleDownload.raw 80) Sample.store0 (SampleDownload.flat 80)
           (pandas.Float64 (Sample.ramp 80))).
  - reflexivity.
  - sample_is_download.
  - repeat constructor.
  - vm_compute. lia.
Defined.

Lemma main_fails_on_short_history_witness :
  startup.main (SampleDownload.raw 3) Sample.store0
  = (Raise pacf_refusal,
     <[fresh (dom Sample.store0)
       := startup.rename (SampleDownload.flat 3) startup.rename_map]> Sample.store0).
Proof.
  apply (main_fails_on_short_history (SampleDownload.raw 3) Sample.store0
           (SampleDownload.flat 3) (pandas.Float64 (Sample.ramp 3))).
  - reflexivity.
  - sample_is_download.
  - repeat constructor.
  - vm_compute. lia.
  - vm_compute. lia.
Defined.

Lemma main_fails_without_close_witness :
  startup.main SampleDownload.no_prices Sample.store0
  = (Raise (KeyError "Cierre"),
     <[fresh (dom Sample.store0)
       := startup.rename SampleDownload.no_prices_flat startup.rename_map]> Sample.store0).
Proof.
  apply (main_fails_without_close SampleDownload.no_prices Sample.store0
           SampleDownload.no_prices_flat).
  - reflexivity.
  - by_evaluation.
  - by_evaluation.
Defined.
